(** * Report generator for co-investors: value parsing, formatting, totals
      and the preview / PDF table projection

    A shallow embedding of [services/formatters.ts], of the table logic of
    [components/ReportPreview.tsx] and of [services/pdfGenerator.ts]
    ([generatePdf]), and of the column selection and the download names of
    [App.tsx], with the properties their specification states and further
    properties read off the code.

    Conventions of the embedding.
    - A JavaScript string is a Rocq [string]; the character numbered [n]
      stands for the UTF-16 code unit [n], so the alphabet is U+0000..U+00FF.
    - A JavaScript number is an IEEE 754 binary64 value, [spec_float] of the
      Standard Library with [prec = 53] and [emax = 1024].
    - A row of the table (a JavaScript object used as a dictionary) is a
      [gmap string JsValue]; reading a key that is not there gives
      [undefined].
    - The functions of the JavaScript platform that the sources call
      ([trim], [replace], [Number], [parseFloat], [toFixed], [String],
      [Intl.NumberFormat]) are defined here after ECMA-262 and ECMA-402. *)

From Stdlib Require Import ZArith Lia Bool List Ascii String.
From Stdlib Require Import Reals Lra Psatz.
From Stdlib Require Import Floats.SpecFloat.
From stdpp Require Import base option list strings gmap.

Local Open Scope string_scope.
Local Open Scope Z_scope.

(** ** Code units and character classes *)

Module Char.

Definition code (c : ascii) : Z := Z.of_N (N_of_ascii c).
Definition ofCode (n : Z) : ascii := ascii_of_N (Z.to_N n).

Definition between (lo hi : Z) (c : ascii) : bool :=
  (lo <=? code c) && (code c <=? hi).

(** [[0-9]] *)
Definition isDigit : ascii -> bool := between 48 57.
Definition isUpperAZ : ascii -> bool := between 65 90.
Definition isLowerAZ : ascii -> bool := between 97 122.

(** [\w] of a regular expression without the [u] or [i] flag:
    [[A-Za-z0-9_]]. *)
Definition isWordChar (c : ascii) : bool :=
  isUpperAZ c || isLowerAZ c || isDigit c || (code c =? 95).

(** [\s], which is also what [String.prototype.trim] removes: WhiteSpace
    and LineTerminator. In this alphabet: TAB, LF, VT, FF, CR, SP, NBSP. *)
Definition isWhiteSpace (c : ascii) : bool :=
  between 9 13 c || (code c =? 32) || (code c =? 160).

(** [\S] *)
Definition isNonSpace (c : ascii) : bool := negb (isWhiteSpace c).

(** [[^0-9.-]]: anything but a digit, ['.'] (46) and ['-'] (45). *)
Definition isNumericChar (c : ascii) : bool :=
  isDigit c || (code c =? 46) || (code c =? 45).
Definition isNotNumericChar (c : ascii) : bool := negb (isNumericChar c).

(** [[%]] *)
Definition isPercent (c : ascii) : bool := code c =? 37.

(** Case mappings of one code unit. The Latin-1 letters U+00C0..U+00DE
    (without the multiplication sign U+00D7) have their lower-case forms
    32 places higher, as [A-Z] have. The upper-case forms of U+00B5,
    U+00DF and U+00FF lie outside the alphabet; these three are kept.
    [toTitleCase] only upper-cases a [\w] character. *)
Definition toLower (c : ascii) : ascii :=
  if isUpperAZ c || (between 192 222 c && negb (code c =? 215))
  then ofCode (code c + 32) else c.

Definition toUpper (c : ascii) : ascii :=
  if isLowerAZ c || (between 224 254 c && negb (code c =? 247))
  then ofCode (code c - 32) else c.

End Char.

(** ** Strings *)

Module Str.

Fixpoint map (f : ascii -> ascii) (s : string) : string :=
  match s with
  | EmptyString => EmptyString
  | String c r => String (f c) (map f r)
  end.

Fixpoint filter (p : ascii -> bool) (s : string) : string :=
  match s with
  | EmptyString => EmptyString
  | String c r => if p c then String c (filter p r) else filter p r
  end.

Fixpoint forallb (p : ascii -> bool) (s : string) : bool :=
  match s with
  | EmptyString => true
  | String c r => p c && forallb p r
  end.

Fixpoint existsb (p : ascii -> bool) (s : string) : bool :=
  match s with
  | EmptyString => false
  | String c r => p c || existsb p r
  end.

Fixpoint dropWhile (p : ascii -> bool) (s : string) : string :=
  match s with
  | EmptyString => EmptyString
  | String c r => if p c then dropWhile p r else s
  end.

Fixpoint takeWhile (p : ascii -> bool) (s : string) : string :=
  match s with
  | EmptyString => EmptyString
  | String c r => if p c then String c (takeWhile p r) else EmptyString
  end.

Fixpoint rev_append (s acc : string) : string :=
  match s with
  | EmptyString => acc
  | String c r => rev_append r (String c acc)
  end.

Definition rev (s : string) : string := rev_append s EmptyString.

Fixpoint drop (n : nat) (s : string) : string :=
  match n, s with
  | S n', String _ r => drop n' r
  | _, _ => s
  end.

Definition eqb (a b : string) : bool := bool_decide (a = b).

(** [s.toLowerCase()], [s.toUpperCase()] *)
Definition toLowerCase : string -> string := map Char.toLower.
Definition toUpperCase : string -> string := map Char.toUpper.

(** [s.charAt(0)]: the first code unit as a string, [''] when there is
    none. *)
Definition charAt0 (s : string) : string :=
  match s with
  | EmptyString => EmptyString
  | String c _ => String c EmptyString
  end.

(** [s.substr(1)] *)
Definition substr1 (s : string) : string :=
  match s with
  | EmptyString => EmptyString
  | String _ r => r
  end.

(** [s.trimStart()], [s.trim()] *)
Definition trimStart (s : string) : string := dropWhile Char.isWhiteSpace s.
Definition trim (s : string) : string :=
  rev (dropWhile Char.isWhiteSpace (rev (trimStart s))).

(** [s.startsWith(p)], and [s.includes(p)] by trying every position. *)
Fixpoint startsWith (p s : string) : bool :=
  match p, s with
  | EmptyString, _ => true
  | String _ _, EmptyString => false
  | String a p', String b s' => bool_decide (a = b) && startsWith p' s'
  end.

Fixpoint includes (p s : string) : bool :=
  startsWith p s ||
  match s with
  | EmptyString => false
  | String _ r => includes p r
  end.

(** [s.replace(/[first][rest]*/g, f)] for two character classes: the
    scan keeps in [m] the match it is inside of, last character first. A match starts at the
    leftmost [first] character outside a match, takes the longest run of
    [rest] characters after it (the star is greedy), and is replaced by
    what the callback [f] returns for it; the characters outside the
    matches are copied. *)
Fixpoint replaceScan (first rest : ascii -> bool) (f : string -> string)
    (m : option string) (s : string) : string :=
  match s with
  | EmptyString =>
      match m with
      | Some txt => f (rev txt)
      | None => EmptyString
      end
  | String c r =>
      match m with
      | Some txt =>
          if rest c then replaceScan first rest f (Some (String c txt)) r
          else if first c then
            f (rev txt) +:+ replaceScan first rest f (Some (String c EmptyString)) r
          else f (rev txt) +:+ String c (replaceScan first rest f None r)
      | None =>
          if first c then replaceScan first rest f (Some (String c EmptyString)) r
          else String c (replaceScan first rest f None r)
      end
  end.

Definition replaceAll (first rest : ascii -> bool) (f : string -> string)
    (s : string) : string :=
  replaceScan first rest f None s.

End Str.

(** ** [toTitleCase] (formatters.ts, lines 6-12)

    [!str] holds for the empty string and for an argument that is absent at
    run time ([undefined], [null]), which [None] stands for. *)

(** The callback: [txt.charAt(0).toUpperCase() + txt.substr(1).toLowerCase()] *)
Definition titleCallback (txt : string) : string :=
  Str.toUpperCase (Str.charAt0 txt) +:+ Str.toLowerCase (Str.substr1 txt).

Definition toTitleCase (str : option string) : string :=
  match str with
  | None | Some EmptyString => ""
  | Some s => Str.replaceAll Char.isWordChar Char.isNonSpace titleCallback s
  end.

(** ** Numbers: IEEE 754 binary64 *)

Module Num.

Definition number : Type := spec_float.

#[global] Instance number_eq_dec : EqDecision spec_float.
Proof. solve_decision. Defined.

Definition prec : Z := 53.
Definition emax : Z := 1024.

Definition NaN : number := S754_nan.
Definition zero : number := S754_zero false.
Definition negZero : number := S754_zero true.
Definition infinity (neg : bool) : number := S754_infinity neg.

(** [x + y], [x / y], [-x] *)
Definition add : number -> number -> number := SFadd prec emax.
Definition div : number -> number -> number := SFdiv prec emax.
Definition neg : number -> number := SFopp.

(** [isNaN(x)], [x > 0], and the truth value of a number ([x || ...],
    [!x]): [NaN], [+0] and [-0] are falsy. *)
Definition isNaN (x : number) : bool :=
  match x with S754_nan => true | _ => false end.

Definition gtZero (x : number) : bool := SFltb zero x.

Definition truthy (x : number) : bool :=
  match x with
  | S754_nan | S754_zero _ => false
  | _ => true
  end.

Definition isFinite (x : number) : bool :=
  match x with
  | S754_zero _ | S754_finite _ _ _ => true
  | _ => false
  end.

Definition signBit (x : number) : bool :=
  match x with
  | S754_zero s | S754_infinity s | S754_finite s _ _ => s
  | S754_nan => false
  end.

(** The number of an array length. *)
Definition ofNat (n : nat) : number :=
  binary_normalize prec emax (Z.of_nat n) 0 false.

(** *** Rounding a non-negative rational to the nearest number

    [divRoundEven a b] is [a / b] rounded to the nearest integer, a tie
    going to the even one. [nearest sg p q] is the binary64 value nearest
    to [p / q] ([0 <= p], [0 < q]) with the sign [sg]: the exponent [e]
    is chosen so that the quotient scaled by [2^-e] has 53 bits, and not
    below the exponent of the subnormal numbers. *)
Definition divRoundEven (a b : Z) : Z :=
  let q := a / b in
  match 2 * (a mod b) ?= b with
  | Lt => q
  | Gt => q + 1
  | Eq => if Z.even q then q else q + 1
  end.

(** Numerator and denominator of [(p / q) / 2^e]. *)
Definition scaled (p q e : Z) : Z * Z :=
  if e <? 0 then (p * 2 ^ (- e), q) else (p, q * 2 ^ e).

(** The [e] with [2^e <= p / q < 2^(e+1)], for [0 < p] and [0 < q]. *)
Definition binade (p q : Z) : Z :=
  let k := Z.log2 p - Z.log2 q in
  let '(a, b) := scaled p q k in
  if a <? b then k - 1 else k.

Definition nearest (sg : bool) (p q : Z) : number :=
  if p <=? 0 then S754_zero sg
  else
    let e := Z.max (binade p q - 52) (-1074) in
    let '(a, b) := scaled p q e in
    let m := divRoundEven a b in
    let '(m, e) := if m =? 2 ^ 53 then (2 ^ 52, e + 1) else (m, e) in
    if m =? 0 then S754_zero sg
    else if 971 <? e then S754_infinity sg
    else S754_finite sg (Z.to_pos m) e.

(** The value [d * 10^e10] of a decimal literal, rounded. *)
Definition ofDecimal (sg : bool) (d e10 : Z) : number :=
  if e10 <? 0 then nearest sg d (10 ^ (- e10)) else nearest sg (d * 10 ^ e10) 1.

(** The exact value of a finite number as a fraction [p / q]. *)
Definition fraction (x : number) : Z * Z :=
  match x with
  | S754_finite _ m e => scaled (Z.pos m) 1 (- e)
  | _ => (0, 1)
  end.

(** *** Decimal digits *)

Definition digitChar (d : Z) : ascii := Char.ofCode (48 + d).

(** The decimal digits of [0 <= n], most significant first, ["0"] for
    zero. The fuel is the number of digits at most. *)
Fixpoint digitsFuel (fuel : nat) (n : Z) (acc : string) : string :=
  match fuel with
  | O => String (digitChar (n mod 10)) acc
  | S fuel' =>
      if n <? 10 then String (digitChar n) acc
      else digitsFuel fuel' (n / 10) (String (digitChar (n mod 10)) acc)
  end.

Definition digits (n : Z) : string :=
  digitsFuel (Z.to_nat (Z.log2 n)) n EmptyString.

(** Reading a run of digits in the base [b]: the value after the digits
    read so far [acc], how many were read, and what follows them. *)
Definition digitIn (b : Z) (c : ascii) : option Z :=
  let v :=
    if Char.isDigit c then Char.code c - 48
    else if Char.between 97 102 c then Char.code c - 87
    else if Char.between 65 70 c then Char.code c - 55
    else b in
  if v <? b then Some v else None.

Fixpoint scanDigits (b : Z) (acc : Z) (n : nat) (s : string) : Z * nat * string :=
  match s with
  | EmptyString => (acc, n, s)
  | String c r =>
      match digitIn b c with
      | Some v => scanDigits b (acc * b + v) (S n) r
      | None => (acc, n, s)
      end
  end.

End Num.

(** ** Numeric literals and number formatting of the platform *)

Module Js.
Import Num.

(** *** StrDecimalLiteral (ECMA-262, 7.1.4.1) *)

Inductive literal : Type :=
| LitInfinity
| LitDecimal (d : Z) (e10 : Z).

Definition literalValue (sg : bool) (l : literal) : number :=
  match l with
  | LitInfinity => infinity sg
  | LitDecimal d e10 => ofDecimal sg d e10
  end.

(** ExponentPart: [e] or [E], an optional sign, and at least one digit;
    when no digit follows, the literal ends before the [e]. *)
Definition scanExponent (s : string) : Z * string :=
  match s with
  | String c r =>
      if (Char.code c =? 101) || (Char.code c =? 69) then
        let '(sg, r') :=
          match r with
          | String c' r'' =>
              if Char.code c' =? 45 then (true, r'')
              else if Char.code c' =? 43 then (false, r'')
              else (false, r)
          | EmptyString => (false, r)
          end in
        let '(x, n, rest) := scanDigits 10 0 O r' in
        match n with
        | O => (0, s)
        | S _ => (if sg then - x else x, rest)
        end
      else (0, s)
  | EmptyString => (0, s)
  end.

(** The longest prefix that is a StrUnsignedDecimalLiteral, and the
    rest. *)
Definition scanUnsigned (s : string) : option (literal * string) :=
  if Str.startsWith "Infinity" s then Some (LitInfinity, Str.drop 8 s)
  else
    let '(i, ni, r1) := scanDigits 10 0 O s in
    let mantissa :=
      match r1 with
      | String c r2 =>
          if Char.code c =? 46 then
            let '(m, nf, r3) := scanDigits 10 i O r2 in
            match ni, nf with
            | O, O => None
            | _, _ => Some (m, Z.of_nat nf, r3)
            end
          else match ni with O => None | S _ => Some (i, 0, r1) end
      | EmptyString => match ni with O => None | S _ => Some (i, 0, r1) end
      end in
    match mantissa with
    | None => None
    | Some (m, nf, r) =>
        let '(x, rest) := scanExponent r in
        Some (LitDecimal m (x - nf), rest)
    end.

(** The longest prefix that is a StrDecimalLiteral: an optional sign and
    an unsigned literal. *)
Definition scanDecimal (s : string) : option (number * string) :=
  let '(sg, body) :=
    match s with
    | String c r =>
        if Char.code c =? 45 then (true, r)
        else if Char.code c =? 43 then (false, r)
        else (false, s)
    | EmptyString => (false, s)
    end in
  match scanUnsigned body with
  | Some (l, rest) => Some (literalValue sg l, rest)
  | None => None
  end.

(** NonDecimalIntegerLiteral: [0x], [0o], [0b] (either case) and digits
    of that base up to the end. *)
Definition scanRadix (s : string) : option number :=
  match s with
  | String z (String x r) =>
      let base :=
        if Char.code z =? 48 then
          if (Char.code x =? 120) || (Char.code x =? 88) then Some 16
          else if (Char.code x =? 111) || (Char.code x =? 79) then Some 8
          else if (Char.code x =? 98) || (Char.code x =? 66) then Some 2
          else None
        else None in
      match base with
      | Some b =>
          match scanDigits b 0 O r with
          | (v, S _, EmptyString) => Some (nearest false v 1)
          | _ => Some NaN
          end
      | None => None
      end
  | _ => None
  end.

(** [Number(s)] for a string [s] (StringToNumber): white space around
    the literal is dropped, the empty string is [+0], and a string that
    is not a literal as a whole is [NaN]. *)
Definition Number (s : string) : number :=
  let t := Str.trim s in
  match t with
  | EmptyString => zero
  | _ =>
      match scanRadix t with
      | Some v => v
      | None =>
          match scanDecimal t with
          | Some (v, EmptyString) => v
          | _ => NaN
          end
      end
  end.

(** [parseFloat(s)]: leading white space is dropped and the longest
    prefix that is a decimal literal is read; [NaN] when there is none. *)
Definition parseFloat (s : string) : number :=
  match scanDecimal (Str.trimStart s) with
  | Some (v, _) => v
  | None => NaN
  end.

(** *** Number::toString (ECMA-262, 6.1.6.1.20), radix 10

    For a finite [x > 0] there are integers [n], [k >= 1] and [s] with
    [10^(k-1) <= s < 10^k] such that [s * 10^(n-k)] rounds to [x], [k]
    as small as possible, and [s] as close to [x] as possible (the even
    one of two). *)

(** The [j] in [0..fuel] from which on [p * 10^j >= q]. *)
Fixpoint leadingZeros (fuel : nat) (p q : Z) (j : Z) : Z :=
  match fuel with
  | O => j
  | S fuel' => if q <=? p then j else leadingZeros fuel' (p * 10) q (j + 1)
  end.

(** The [n] with [10^(n-1) <= p / q < 10^n]. *)
Definition decade (p q : Z) : Z :=
  if q <=? p then Z.of_nat (String.length (digits (p / q)))
  else 1 - leadingZeros 400 p q 0.

(** Numerator and denominator of [(p / q) / 10^t]. *)
Definition scaled10 (p q t : Z) : Z * Z :=
  if t <? 0 then (p * 10 ^ (- t), q) else (p, q * 10 ^ t).

(** The [k]-digit candidates around [x = p/q], and the one to print,
    if one of them rounds to [x]. *)
Definition candidate (x : number) (p q n0 : Z) (k : Z) : option Z :=
  let t := n0 - k in
  let '(a, b) := scaled10 p q t in
  let lo := a / b in
  let okLo := bool_decide (ofDecimal false lo t = x) in
  let okHi := bool_decide (ofDecimal false (lo + 1) t = x) in
  match okLo, okHi with
  | true, true =>
      match 2 * (a mod b) ?= b with
      | Lt => Some lo
      | Gt => Some (lo + 1)
      | Eq => Some (if Z.even lo then lo else lo + 1)
      end
  | true, false => Some lo
  | false, true => Some (lo + 1)
  | false, false => None
  end.

Fixpoint shortestFrom (fuel : nat) (x : number) (p q n0 : Z) (k : Z) : Z * Z :=
  match candidate x p q n0 k with
  | Some c => if c =? 10 ^ k then (1, n0 + 1) else (c, n0)
  | None =>
      match fuel with
      | O => (fst (scaled10 p q (n0 - k)) / snd (scaled10 p q (n0 - k)), n0)
      | S fuel' => shortestFrom fuel' x p q n0 (k + 1)
      end
  end.

(** [(s, n)] for the absolute value of a finite non-zero [x]. *)
Definition shortest (x : number) : Z * Z :=
  let '(p, q) := fraction x in
  shortestFrom 20 (SFabs x) p q (decade p q) 1.

Fixpoint zeros (n : nat) : string :=
  match n with
  | O => EmptyString
  | S n' => String (digitChar 0) (zeros n')
  end.

Fixpoint take (n : nat) (s : string) : string :=
  match n, s with
  | S n', String c r => String c (take n' r)
  | _, _ => EmptyString
  end.

Definition positiveToString (x : number) : string :=
  let '(s, n) := shortest x in
  let ds := digits s in
  let k := Z.of_nat (String.length ds) in
  if (k <=? n) && (n <=? 21) then ds +:+ zeros (Z.to_nat (n - k))
  else if (0 <? n) && (n <=? 21) then
    take (Z.to_nat n) ds +:+ "." +:+ Str.drop (Z.to_nat n) ds
  else if (-6 <? n) && (n <=? 0) then "0." +:+ zeros (Z.to_nat (- n)) +:+ ds
  else
    let e := n - 1 in
    let ex := (if e <? 0 then "-" else "+") +:+ digits (Z.abs e) in
    if k =? 1 then ds +:+ "e" +:+ ex
    else take 1 ds +:+ "." +:+ Str.drop 1 ds +:+ "e" +:+ ex.

Definition numberToString (x : number) : string :=
  match x with
  | S754_nan => "NaN"
  | S754_zero _ => "0"
  | S754_infinity sg => if sg then "-Infinity" else "Infinity"
  | S754_finite sg _ _ =>
      if sg then "-" +:+ positiveToString x else positiveToString x
  end.

(** *** Number.prototype.toFixed (ECMA-262, 21.1.3.3)

    [roundHalfUp p q] is the integer nearest to [p / q], the larger of
    two. From [10^21] on, and for a value that is not finite, the result
    is that of [String(x)]. *)
Definition roundHalfUp (p q : Z) : Z := (2 * p + q) / (2 * q).

Definition padStart (n : nat) (s : string) : string :=
  zeros (n - String.length s) +:+ s.

Definition toFixed (x : number) (f : nat) : string :=
  match x with
  | S754_finite sg _ _ =>
      let '(p, q) := fraction x in
      if 10 ^ 21 * q <=? p then numberToString x
      else
        let n := roundHalfUp (p * 10 ^ Z.of_nat f) q in
        let m := padStart (S f) (digits n) in
        let body :=
          match f with
          | O => m
          | S _ =>
              take (String.length m - f) m +:+ "." +:+ Str.drop (String.length m - f) m
          end in
        if sg then "-" +:+ body else body
  | S754_zero _ => match f with O => "0" | S _ => "0." +:+ zeros f end
  | _ => numberToString x
  end.

(** *** Intl.NumberFormat('en-US', { style: 'currency', currency: 'USD' })

    [format(x)] after ECMA-402 (FormatNumericToString with two fraction
    digits and the rounding mode half-expand, grouping by three, the
    minus sign for a negative number, negative zero included). The
    infinity sign U+221E lies outside the alphabet and is written as its
    three UTF-8 bytes. *)
Fixpoint groupRev (s : string) (i : nat) : string :=
  match s with
  | EmptyString => EmptyString
  | String c r =>
      match i with
      | 3%nat => String "," (String c (groupRev r 1))
      | _ => String c (groupRev r (S i))
      end
  end.

Definition groupThousands (ds : string) : string :=
  Str.rev (groupRev (Str.rev ds) 0).

Definition cents (x : number) : Z :=
  let '(p, q) := fraction x in roundHalfUp (p * 100) q.

Definition formatCents (sg : bool) (c : Z) : string :=
  (if sg then "-$" else "$")
    +:+ groupThousands (digits (c / 100)) +:+ "." +:+ padStart 2 (digits (c mod 100)).

Definition formatUSD (x : number) : string :=
  match x with
  | S754_nan => "$NaN"
  | S754_infinity sg => if sg then "-$∞" else "$∞"
  | _ => formatCents (signBit x) (cents x)
  end.

End Js.

(** ** Values *)

(** A JavaScript value as [typeof] and [String] see it: the primitive
    values a cell can hold, and [VObject repr] for any other value (an
    array, a date), known by the text [repr] that [String(value)] gives. *)
Inductive JsValue : Type :=
| VUndefined
| VNull
| VBoolean (b : bool)
| VNumber (n : Num.number)
| VString (s : string)
| VObject (repr : string).

#[global] Instance JsValue_eq_dec : EqDecision JsValue.
Proof. solve_decision. Defined.

(** [String(v)] *)
Definition toString (v : JsValue) : string :=
  match v with
  | VUndefined => "undefined"
  | VNull => "null"
  | VBoolean b => if b then "true" else "false"
  | VNumber n => Js.numberToString n
  | VString s => s
  | VObject repr => repr
  end.

(** [v ?? d] *)
Definition nullish (v d : JsValue) : JsValue :=
  match v with
  | VUndefined | VNull => d
  | _ => v
  end.

(** [r || 0] for [r : number | null] *)
Definition orZero (r : option Num.number) : Num.number :=
  match r with
  | Some n => if Num.truthy n then n else Num.zero
  | None => Num.zero
  end.

(** ** [parseCurrency] (formatters.ts, lines 20-50) *)

Definition parseCurrency (value : JsValue) : option Num.number :=
  match value with
  | VNumber n => Some n
  | VString value =>
      if Str.eqb (Str.trim value) "" then None
      else
        let isNegative := Str.includes "(" value && Str.includes ")" value in
        let cleanedString :=
          Str.replaceAll Char.isNotNumericChar Char.isNotNumericChar (fun _ => "") value in
        if Str.eqb cleanedString "" || Str.eqb cleanedString "." || Str.eqb cleanedString "-"
        then None
        else
          let num := Js.Number cleanedString in
          if Num.isNaN num then None
          else if isNegative && Num.gtZero num then Some (Num.neg num)
          else Some num
  | _ => None
  end.

(** ** [formatCurrency] (formatters.ts, lines 58-69) *)

Definition formatCurrency (value : JsValue) : string :=
  match parseCurrency value with
  | None => toString (nullish value (VString ""))
  | Some number => Js.formatUSD number
  end.

(** ** [parsePercent] (formatters.ts, lines 76-86) *)

Definition parsePercent (value : JsValue) : option Num.number :=
  match value with
  | VNumber n => Some n
  | VString value =>
      if Str.eqb (Str.trim value) "" then None
      else
        let cleanedString :=
          Str.trim (Str.replaceAll Char.isPercent (fun _ => false) (fun _ => "") value) in
        let num := Js.parseFloat cleanedString in
        if Num.isNaN num then None else Some num
  | _ => None
  end.

(** ** Tables *)

(** [TableRow]: an object read as a dictionary from header to cell. *)
Abbreviation TableRow := (gmap string JsValue).

(** [row[header]] *)
Definition cell (row : TableRow) (header : string) : JsValue :=
  default VUndefined (row !! header).

Inductive Align : Type := AlignLeft | AlignRight.

#[global] Instance Align_eq_dec : EqDecision Align.
Proof. solve_decision. Defined.

(** [h => h.toLowerCase() === targetHeader.toLowerCase()] *)
Definition matchesHeader (targetHeader h : string) : bool :=
  Str.eqb (Str.toLowerCase h) (Str.toLowerCase targetHeader).

(** [list.findIndex(p)]: the first position where [p] holds, [-1] when
    there is none. *)
Fixpoint findIndexFrom {A : Type} (p : A -> bool) (l : list A) (i : Z) : Z :=
  match l with
  | [] => -1
  | x :: r => if p x then i else findIndexFrom p r (i + 1)
  end.

Definition findIndex {A : Type} (p : A -> bool) (l : list A) : Z :=
  findIndexFrom p l 0.

(** The truth value of [list.find(p)] for strings: [undefined] and the
    empty string are falsy. *)
Definition truthyString (o : option string) : option string :=
  match o with
  | Some (String c r) => Some (String c r)
  | _ => None
  end.

(** [['Interest Rate', 'Maturity Date', 'Term Left', 'Regular Payment',
    'Loan Balance', 'Percent Owned'].map(h => h.toLowerCase())] *)
Definition columnsToAlignRight : list string :=
  List.map Str.toLowerCase
    ["Interest Rate"; "Maturity Date"; "Term Left"; "Regular Payment";
     "Loan Balance"; "Percent Owned"].

(** [columnsToAlignRight.includes(header.toLowerCase())] *)
Definition isRightAligned (header : string) : bool :=
  bool_decide (Str.toLowerCase header ∈ columnsToAlignRight).

(** [lowerCaseHeader === 'regular payment' || lowerCaseHeader === 'loan balance'] *)
Definition isCurrency (header : string) : bool :=
  let lowerCaseHeader := Str.toLowerCase header in
  Str.eqb lowerCaseHeader "regular payment" || Str.eqb lowerCaseHeader "loan balance".

(** The totals, computed the same way in [ReportPreview] (lines 99-121) and
    in [generatePdf] (lines 76-96). *)
Record Totals : Type := {
  regularPaymentTotal : Num.number;
  loanBalanceTotal : Num.number;
  portfolioYield : Num.number;
  loanCount : nat
}.

Definition computeTotals (headers : list string) (data : list TableRow) : Totals :=
  let findHeader targetHeader := List.find (matchesHeader targetHeader) headers in
  let regularPaymentHeader := findHeader "Regular Payment" in
  let loanBalanceHeader := findHeader "Loan Balance" in
  let interestRateHeader := findHeader "Interest Rate" in
  let regularPaymentTotal :=
    match truthyString regularPaymentHeader with
    | Some h =>
        fold_left (fun acc row => Num.add acc (orZero (parseCurrency (cell row h)))) data Num.zero
    | None => Num.zero
    end in
  let loanBalanceTotal :=
    match truthyString loanBalanceHeader with
    | Some h =>
        fold_left (fun acc row => Num.add acc (orZero (parseCurrency (cell row h)))) data Num.zero
    | None => Num.zero
    end in
  let loanCount := length data in
  let portfolioYield :=
    match truthyString interestRateHeader with
    | Some h =>
        if (0 <? loanCount)%nat then
          let totalInterestRate :=
            fold_left (fun acc row => Num.add acc (orZero (parsePercent (cell row h)))) data Num.zero in
          Num.div totalInterestRate (Num.ofNat loanCount)
        else Num.zero
    | None => Num.zero
    end in
  {| regularPaymentTotal := regularPaymentTotal;
     loanBalanceTotal := loanBalanceTotal;
     portfolioYield := portfolioYield;
     loanCount := loanCount |}.

(** [`Portfolio Yield: ${portfolioYield.toFixed(4)}% (${loanCount} loans)`] *)
Definition yieldText (t : Totals) : string :=
  "Portfolio Yield: " +:+ Js.toFixed (portfolioYield t) 4 +:+ "% ("
    +:+ Js.numberToString (Num.ofNat (loanCount t)) +:+ " loans)".

(** ** [ReportPreview] (components/ReportPreview.tsx)

    The rendered table as data: the alignment class and the text of every
    cell. A footer cell also keeps its React key, which names the branch it
    comes from. *)

Module ReportPreview.

Record Cell : Type := { align : option Align; text : string }.
Record FootCell : Type := { key : string; content : Cell }.

Inductive View : Type :=
| Placeholder
| TableView (thead : list Cell) (tbody : list (list Cell)) (tfoot : list FootCell)
    (indicator : option string).

Definition alignOf (header : string) : Align :=
  if isRightAligned header then AlignRight else AlignLeft.

Definition headCell (header : string) : Cell :=
  {| align := Some (alignOf header); text := toTitleCase (Some header) |}.

Definition bodyCell (row : TableRow) (header : string) : Cell :=
  {| align := Some (alignOf header);
     text := if isCurrency header then formatCurrency (cell row header)
             else toString (nullish (cell row header) (VString "")) |}.

Definition footCell (headers : list string) (totals : Totals) (index : Z) (header : string)
    : FootCell :=
  let findHeaderIndex targetHeader := findIndex (matchesHeader targetHeader) headers in
  let regularPaymentIndex := findHeaderIndex "Regular Payment" in
  let loanBalanceIndex := findHeaderIndex "Loan Balance" in
  let hasInterestRate :=
    existsb (fun h => Str.eqb (Str.toLowerCase h) "interest rate") headers in
  if index =? 0 then
    {| key := "total-label"; content := {| align := Some AlignLeft; text := "Totals" |} |}
  else if (index =? 1) && hasInterestRate then
    {| key := "yield"; content := {| align := Some AlignLeft; text := yieldText totals |} |}
  else if index =? regularPaymentIndex then
    {| key := "total-rp";
       content := {| align := Some AlignRight;
                     text := formatCurrency (VNumber (regularPaymentTotal totals)) |} |}
  else if index =? loanBalanceIndex then
    {| key := "total-lb";
       content := {| align := Some AlignRight;
                     text := formatCurrency (VNumber (loanBalanceTotal totals)) |} |}
  else {| key := "empty-" +:+ header; content := {| align := None; text := "" |} |}.

Definition render (headers : list string) (data : list TableRow) : View :=
  let totals := computeTotals headers data in
  match headers with
  | [] => Placeholder
  | _ =>
      TableView
        (List.map headCell headers)
        (List.map (fun row => List.map (bodyCell row) headers) (take 50 data))
        (imap (fun index header => footCell headers totals (Z.of_nat index) header) headers)
        (if (50 <? length data)%nat
         then Some ("Mostrando las primeras 50 filas de "
                      +:+ Js.numberToString (Num.ofNat (length data)) +:+ " totales.")
         else None)
  end.

Definition bodyRows (v : View) : list (list Cell) :=
  match v with
  | Placeholder => []
  | TableView _ tbody _ _ => tbody
  end.

Definition footRow (v : View) : list FootCell :=
  match v with
  | Placeholder => []
  | TableView _ _ tfoot _ => tfoot
  end.

Definition rowIndicator (v : View) : option string :=
  match v with
  | Placeholder => None
  | TableView _ _ _ indicator => indicator
  end.

End ReportPreview.

(** ** [generatePdf] (services/pdfGenerator.ts): the table handed to
    [autoTable] *)

Module PdfGenerator.

(** A footer cell is [''] or [{ content, styles: { halign } }]. *)
Inductive FootCell : Type :=
| Plain (s : string)
| Styled (content : string) (halign : Align).

Record Table : Type := {
  head : list string;
  body : list (list JsValue);
  foot : list FootCell;
  columnStyles : gmap nat Align
}.

Definition tableData (headers : list string) (data : list TableRow) : list (list JsValue) :=
  List.map (fun row =>
    List.map (fun header =>
      let lowerCaseHeader := Str.toLowerCase header in
      if Str.eqb lowerCaseHeader "regular payment" || Str.eqb lowerCaseHeader "loan balance"
      then VString (formatCurrency (cell row header))
      else nullish (cell row header) (VString "")) headers) data.

(** [headers.forEach((header, index) => { if (...) columnStyles[index] = { halign: 'right' } })] *)
Definition columnStylesOf (headers : list string) : gmap nat Align :=
  fold_left (fun styles '(index, header) =>
               if isRightAligned header then <[index := AlignRight]> styles else styles)
    (imap (fun index header => (index, header)) headers) ∅.

Definition footerRow (headers : list string) (totals : Totals) : list FootCell :=
  let findHeaderIndex targetHeader := findIndex (matchesHeader targetHeader) headers in
  let hasInterestRate :=
    match truthyString (List.find (matchesHeader "Interest Rate") headers) with
    | Some _ => true
    | None => false
    end in
  let footerRow := replicate (length headers) (Plain "") in
  let regularPaymentIndex := findHeaderIndex "Regular Payment" in
  let loanBalanceIndex := findHeaderIndex "Loan Balance" in
  let footerRow :=
    if (0 <? length headers)%nat then <[0%nat := Styled "Totals" AlignLeft]> footerRow
    else footerRow in
  let footerRow :=
    if (1 <? length headers)%nat && hasInterestRate
    then <[1%nat := Styled (yieldText totals) AlignLeft]> footerRow
    else footerRow in
  let footerRow :=
    if negb (regularPaymentIndex =? -1)
    then <[Z.to_nat regularPaymentIndex :=
             Styled (formatCurrency (VNumber (regularPaymentTotal totals))) AlignRight]> footerRow
    else footerRow in
  let footerRow :=
    if negb (loanBalanceIndex =? -1)
    then <[Z.to_nat loanBalanceIndex :=
             Styled (formatCurrency (VNumber (loanBalanceTotal totals))) AlignRight]> footerRow
    else footerRow in
  footerRow.

Definition table (headers : list string) (data : list TableRow) : Table :=
  {| head := List.map (fun h => toTitleCase (Some h)) headers;
     body := tableData headers data;
     foot := footerRow headers (computeTotals headers data);
     columnStyles := columnStylesOf headers |}.

(** The text [autoTable] prints for a cell: ['' + content]. *)
Definition bodyText (v : JsValue) : string := toString v.

Definition footText (c : FootCell) : string :=
  match c with
  | Plain s => s
  | Styled content _ => content
  end.

End PdfGenerator.

(** ** Words of a string, for the title-case property *)

Module TitleSpec.

(** The maximal runs of white space and of other characters, in order:
    their concatenation is the string. *)
Definition sameClass (c : ascii) (r : string) : bool :=
  match r with
  | EmptyString => false
  | String d _ => Bool.eqb (Char.isWhiteSpace c) (Char.isWhiteSpace d)
  end.

Fixpoint runs (s : string) : list string :=
  match s with
  | EmptyString => []
  | String c s' =>
      match runs s' with
      | r :: rs =>
          if sameClass c r then String c r :: rs
          else String c EmptyString :: r :: rs
      | [] => [String c EmptyString]
      end
  end.

(** A word is a run of characters that are not white space. *)
Definition isWord (r : string) : bool :=
  match r with
  | EmptyString => false
  | String c _ => Char.isNonSpace c
  end.

(** What the specification says of a word: its first character in upper
    case, the rest in lower case. *)
Definition capitalizeFirst (w : string) : string :=
  match w with
  | EmptyString => EmptyString
  | String c r => String (Char.toUpper c) (Str.toLowerCase r)
  end.

(** What [/\w\S*/g] does to a word: the characters before its first [\w]
    character stay, that character goes to upper case and what follows it
    to lower case; a word without a [\w] character stays as it is. *)
Fixpoint capitalizeFromWordChar (w : string) : string :=
  match w with
  | EmptyString => EmptyString
  | String c r =>
      if Char.isWordChar c then String (Char.toUpper c) (Str.toLowerCase r)
      else String c (capitalizeFromWordChar r)
  end.

Definition concat (l : list string) : string :=
  fold_right String.append EmptyString l.

Definition titleByWords (onWord : string -> string) (s : string) : string :=
  concat (List.map (fun r => if isWord r then onWord r else r) (runs s)).

End TitleSpec.

(** ** The contracts of the parsers, in the words of the specification *)

Module ParseSpec.

(** A string of white space only (the empty string is one). *)
Definition whitespaceOnly (s : string) : bool := Str.forallb Char.isWhiteSpace s.

(** The string without every character but digits, ['.'] and ['-']. *)
Definition residue (s : string) : string := Str.filter Char.isNumericChar s.

(** Both parentheses occur somewhere. *)
Definition hasParentheses (s : string) : bool :=
  Str.existsb (fun c => bool_decide (c = "("%char)) s
  && Str.existsb (fun c => bool_decide (c = ")"%char)) s.

Definition parseCurrencySpec (v : JsValue) : option Num.number :=
  match v with
  | VNumber n => Some n
  | VString s =>
      if whitespaceOnly s then None
      else
        let r := residue s in
        if bool_decide (r = "" \/ r = "." \/ r = "-") then None
        else
          let num := Js.Number r in
          if Num.isNaN num then None
          else Some (if hasParentheses s && Num.gtZero num then Num.neg num else num)
  | _ => None
  end.

(** The string without its percent signs. *)
Definition withoutPercent (s : string) : string :=
  Str.filter (fun c => negb (Char.isPercent c)) s.

(** [parsePercent], with the test the result is put to as a parameter:
    the specification has "not a finite number" there. *)
Definition parsePercentSpec (rejected : Num.number -> bool) (v : JsValue)
    : option Num.number :=
  match v with
  | VNumber n => Some n
  | VString s =>
      if whitespaceOnly s then None
      else
        let num := Js.parseFloat (Str.trim (withoutPercent s)) in
        if rejected num then None else Some num
  | _ => None
  end.

End ParseSpec.

(** ** The totals and the table, in the words of the specification *)

Module TableSpec.

(** The header of a role: the first header, in header order, that equals
    the role name when both are put in lower case. *)
Definition roleHeader (role : string) (headers : list string) : option string :=
  List.find (fun h => bool_decide (Str.toLowerCase h = Str.toLowerCase role)) headers.

Definition rolePresent (role : string) (headers : list string) : bool :=
  bool_decide (Str.toLowerCase role ∈ List.map Str.toLowerCase headers).

(** The sum of a list of numbers, taken in order from [0]. *)
Definition sum (l : list Num.number) : Num.number := fold_left Num.add l Num.zero.


(** The code has [0] also for a parsed number that is [NaN] or a zero. *)
Definition falsyAsZero (r : option Num.number) : Num.number :=
  match r with
  | Some (S754_finite s m e) => S754_finite s m e
  | Some (S754_infinity s) => S754_infinity s
  | _ => Num.zero
  end.

Definition columnSum (contribution : option Num.number -> Num.number)
    (parse : JsValue -> option Num.number) (h : string) (data : list TableRow) : Num.number :=
  sum (List.map (fun row => contribution (parse (cell row h))) data).

Definition totalOf (contribution : option Num.number -> Num.number)
    (role : string) (headers : list string) (data : list TableRow) : Num.number :=
  match roleHeader role headers with
  | Some h => columnSum contribution parseCurrency h data
  | None => Num.zero
  end.

Definition yieldOf (contribution : option Num.number -> Num.number)
    (headers : list string) (data : list TableRow) : Num.number :=
  match roleHeader "Interest Rate" headers, data with
  | Some h, _ :: _ =>
      Num.div (columnSum contribution parsePercent h data) (Num.ofNat (length data))
  | _, _ => Num.zero
  end.

(** The texts of the two renderings, by position. *)
Definition previewFooterText (headers : list string) (data : list TableRow) (i : nat)
    : option string :=
  match ReportPreview.footRow (ReportPreview.render headers data) !! i with
  | Some c => Some (ReportPreview.text (ReportPreview.content c))
  | None => None
  end.

Definition pdfFooterText (headers : list string) (data : list TableRow) (i : nat)
    : option string :=
  match PdfGenerator.foot (PdfGenerator.table headers data) !! i with
  | Some c => Some (PdfGenerator.footText c)
  | None => None
  end.

Definition previewBodyText (headers : list string) (data : list TableRow) (i j : nat)
    : option string :=
  match ReportPreview.bodyRows (ReportPreview.render headers data) !! i with
  | Some r =>
      match r !! j with
      | Some c => Some (ReportPreview.text c)
      | None => None
      end
  | None => None
  end.

Definition pdfBodyText (headers : list string) (data : list TableRow) (i j : nat)
    : option string :=
  match PdfGenerator.body (PdfGenerator.table headers data) !! i with
  | Some r =>
      match r !! j with
      | Some v => Some (PdfGenerator.bodyText v)
      | None => None
      end
  | None => None
  end.

(** The positions of the footer the specification speaks of. *)
Definition regularPaymentIndex (headers : list string) : Z :=
  findIndex (matchesHeader "Regular Payment") headers.
Definition loanBalanceIndex (headers : list string) : Z :=
  findIndex (matchesHeader "Loan Balance") headers.
Definition hasInterestRate (headers : list string) : bool :=
  rolePresent "Interest Rate" headers.

(** The first column, and the second one when it shows the yield. *)
Definition isLabelPosition (headers : list string) (i : nat) : bool :=
  bool_decide (i = 0%nat) || (bool_decide (i = 1%nat) && hasInterestRate headers).

(** The column of the Regular Payment or of the Loan Balance role. *)
Definition isTotalPosition (headers : list string) (i : nat) : bool :=
  bool_decide (Z.of_nat i = regularPaymentIndex headers)
  || bool_decide (Z.of_nat i = loanBalanceIndex headers).

(** What the preview shows at a position: the first of the four rules
    that applies. *)
Definition previewChoice (headers : list string) (t : Totals) (i : nat) : string :=
  if bool_decide (i = 0%nat) then "Totals"
  else if bool_decide (i = 1%nat) && hasInterestRate headers then yieldText t
  else if bool_decide (Z.of_nat i = regularPaymentIndex headers)
    then formatCurrency (VNumber (regularPaymentTotal t))
  else if bool_decide (Z.of_nat i = loanBalanceIndex headers)
    then formatCurrency (VNumber (loanBalanceTotal t))
  else "".

(** What the PDF footer holds at a position: the last of the four
    assignments that writes there. *)
Definition pdfChoice (headers : list string) (t : Totals) (i : nat) : string :=
  if bool_decide (Z.of_nat i = loanBalanceIndex headers)
    then formatCurrency (VNumber (loanBalanceTotal t))
  else if bool_decide (Z.of_nat i = regularPaymentIndex headers)
    then formatCurrency (VNumber (regularPaymentTotal t))
  else if bool_decide (i = 1%nat) && hasInterestRate headers then yieldText t
  else if bool_decide (i = 0%nat) then "Totals"
  else "".

Definition withRegularPaymentTotal (x : Num.number) (t : Totals) : Totals :=
  {| regularPaymentTotal := x;
     loanBalanceTotal := loanBalanceTotal t;
     portfolioYield := portfolioYield t;
     loanCount := loanCount t |}.

End TableSpec.

(** ** The shape of a formatted amount *)

Module FormatSpec.

(** Digits in groups of three separated by commas, the leftmost group
    of one to three digits; read from the right, [i] counts the digits
    of the group at hand. *)
Fixpoint groupedRev (s : string) (i : nat) : bool :=
  match s with
  | EmptyString => (0 <? i)%nat
  | String c r =>
      match i with
      | 3%nat => bool_decide (c = ","%char) && groupedRev r 0
      | _ => Char.isDigit c && groupedRev r (S i)
      end
  end.

Definition grouped (s : string) : bool := groupedRev (Str.rev s) 0.

(** A US-dollar amount: a minus sign when [neg], the dollar sign, the
    grouped integer digits, the decimal point and two digits. *)
Definition usdShape (neg : bool) (s : string) : Prop :=
  exists int frac,
    s = (if neg then "-" else "") +:+ "$" +:+ int +:+ "." +:+ frac
    /\ grouped int = true
    /\ String.length frac = 2%nat
    /\ Str.forallb Char.isDigit frac = true.



End FormatSpec.

(** ** Reading back a formatted amount *)

Module ReadSpec.




End ReadSpec.

(** The absolute value of a number as a real number. *)
Module RealSpec.


End RealSpec.

(** ** [App] (App.tsx): the selection of the columns and the names of the
    downloads *)

Module App.

Definition DEFAULT_SELECTED_HEADERS : list string :=
  ["Loan Account"; "Borrower Name"; "Interest Rate"; "Maturity Date"; "Term Left";
   "Regular Payment"; "Loan Balance"].

(** [list.includes(x)] for a list of strings *)
Definition includes (x : string) (l : list string) : bool := bool_decide (x ∈ l).

(** [DEFAULT_SELECTED_HEADERS.filter(h => headers.includes(h))] (line 50) *)
Definition defaultSelection (headers : list string) : list string :=
  List.filter (fun h => includes h headers) DEFAULT_SELECTED_HEADERS.

(** [defaultSelection.length > 0 ? defaultSelection : []] (line 51): the
    selection after a file is read. *)
Definition initialSelection (headers : list string) : list string :=
  let defaultSelection := defaultSelection headers in
  if (0 <? length defaultSelection)%nat then defaultSelection else [].

(** [handleHeaderSelectionChange] (lines 62-66):
    [prev.includes(header) ? prev.filter(h => h !== header) : [...prev, header]] *)
Definition handleHeaderSelectionChange (header : string) (prev : list string)
    : list string :=
  if includes header prev then List.filter (fun h => negb (Str.eqb h header)) prev
  else (prev ++ [header])%list.

(** [handleSelectAll], [handleDeselectAll] (lines 68-69) *)
Definition handleSelectAll (allHeaders : list string) : list string := allHeaders.
Definition handleDeselectAll : list string := [].

(** What the user can do in [ColumnSelector]: press the chip of a header,
    "Seleccionar Todo" or "Deseleccionar Todo". *)
Inductive Action : Type :=
| SelectionChange (header : string)
| SelectAll
| DeselectAll.

Definition step (allHeaders selectedHeaders : list string) (a : Action) : list string :=
  match a with
  | SelectionChange header => handleHeaderSelectionChange header selectedHeaders
  | SelectAll => handleSelectAll allHeaders
  | DeselectAll => handleDeselectAll
  end.

(** [ColumnSelector] renders one chip for each header of the file
    ([headers.map], ColumnSelector.tsx line 22), so a press names one of
    them. *)
Definition offered (allHeaders : list string) (a : Action) : Prop :=
  match a with
  | SelectionChange header => header ∈ allHeaders
  | _ => True
  end.

(** The selection after a file with the headers [allHeaders] is read and
    the actions are done in order. *)
Definition selectionAfter (allHeaders : list string) (actions : list Action)
    : list string :=
  fold_left (step allHeaders) actions (initialSelection allHeaders).

(** [title.replace(/\s/g, '_')] *)
Definition underscored (title : string) : string :=
  Str.replaceAll Char.isWhiteSpace (fun _ => false) (fun _ => "_") title.

(** [s || 'Informe'] for a string: the empty string is falsy. *)
Definition orInforme (s : string) : string :=
  match s with
  | EmptyString => "Informe"
  | _ => s
  end.

(** The name [generatePdf] saves the document under (pdfGenerator.ts,
    line 154): [`${title.replace(/\s/g, '_')}_informe.pdf`] *)
Definition pdfFileName (title : string) : string :=
  underscored title +:+ "_informe.pdf".

(** [handleGeneratePdf] (lines 71-83): nothing is generated without a
    selected header or without a row; otherwise [generatePdf] gets
    [reportTitle || "Informe"], the selection and the rows. The result is
    the name of the saved file and the table it holds. *)
Definition handleGeneratePdf (reportTitle : string) (selectedHeaders : list string)
    (data : list TableRow) : option (string * PdfGenerator.Table) :=
  if (length selectedHeaders =? 0)%nat || (length data =? 0)%nat then None
  else Some (pdfFileName (orInforme reportTitle), PdfGenerator.table selectedHeaders data).

(** The name of the image download (line 127):
    [`${reportTitle.replace(/\s/g, '_') || 'Informe'}.png`] *)
Definition imageFileName (reportTitle : string) : string :=
  orInforme (underscored reportTitle) +:+ ".png".

End App.

(** The header line of the preview. *)
Definition headRow (v : ReportPreview.View) : list ReportPreview.Cell :=
  match v with
  | ReportPreview.Placeholder => []
  | ReportPreview.TableView thead _ _ _ => thead
  end.

(** [toTitleCase] on a string that is there. *)
Definition titled (s : string) : string :=
  Str.replaceAll Char.isWordChar Char.isNonSpace titleCallback s.

(** A string that does not start with a [\S] character: a run of [\S]
    characters before it stops there. *)
Definition stops (t : string) : Prop :=
  match t with
  | EmptyString => True
  | String c _ => Char.isNonSpace c = false
  end.

(** The later version of [generatePdf] (pdfGenerator.ts, lines 128-139)
    fits the table to the page by the number of columns: the font size and
    the cell padding it hands to [autoTable]. *)
Definition tableStyles (headers : list string) : Num.number * Num.number :=
  let fontSize := Num.ofDecimal false 95 (-1) in
  let cellPadding := Num.ofDecimal false 25 (-1) in
  let columnCount := length headers in
  if (12 <? columnCount)%nat then (Num.ofDecimal false 7 0, Num.ofDecimal false 15 (-1))
  else if (8 <? columnCount)%nat then (Num.ofDecimal false 8 0, Num.ofDecimal false 2 0)
  else (fontSize, cellPadding).

(** ** The embedding on concrete inputs *)

Example toTitleCase_ex1 : toTitleCase (Some "loan balance") = "Loan Balance".
Proof. vm_compute. reflexivity. Qed.

Example toTitleCase_ex2 : toTitleCase (Some "(ABC) hello-WORLD  x") = "(Abc) Hello-world  X".
Proof. vm_compute. reflexivity. Qed.

Example numberToString_ex :
  Js.numberToString (Js.Number "8.5") = "8.5" /\ Js.numberToString (Js.Number "0.1") = "0.1"
  /\ Js.numberToString (Js.Number "1e21") = "1e+21" /\ Js.numberToString (Js.Number "123456789012345680000") = "123456789012345680000"
  /\ Js.numberToString (Js.Number "1180591620717411303424") = "1.1805916207174113e+21"
  /\ Js.numberToString (Js.Number "0.000001") = "0.000001" /\ Js.numberToString (Js.Number "1e-7") = "1e-7"
  /\ Js.numberToString (Js.Number "-1234.56") = "-1234.56" /\ Js.numberToString (Js.Number "5e-324") = "5e-324"
  /\ Js.numberToString (Js.Number "1.7976931348623157e308") = "1.7976931348623157e+308"
  /\ Js.numberToString (Js.Number "9.5e22") = "9.5e+22" /\ Js.numberToString (Js.Number "100") = "100"
  /\ Js.numberToString (Num.add (Js.Number "0.1") (Js.Number "0.2")) = "0.30000000000000004".
Proof. vm_compute. repeat split. Qed.

Example toFixed_ex :
  Js.toFixed (Js.Number "5") 4 = "5.0000" /\ Js.toFixed (Js.Number "1.005") 2 = "1.00"
  /\ Js.toFixed (Js.Number "-0.00001") 4 = "-0.0000" /\ Js.toFixed Num.negZero 4 = "0.0000"
  /\ Js.toFixed (Js.Number "9.20") 4 = "9.2000" /\ Js.toFixed (Js.Number "1e21") 4 = "1e+21"
  /\ Js.toFixed (Js.Number "0.00005") 4 = "0.0001" /\ Js.toFixed (Js.Number "2.5") 0 = "3"
  /\ Js.toFixed Num.NaN 4 = "NaN" /\ Js.toFixed (Js.Number "123.456789") 4 = "123.4568".
Proof. vm_compute. repeat split. Qed.

Example Number_ex1 : Js.Number "1234.56" = S754_finite false 5429652300748554 (-42).
Proof. vm_compute. reflexivity. Qed.

Example Number_ex2 : Js.Number "-" = Num.NaN /\ Js.Number "." = Num.NaN /\ Js.Number "" = Num.zero
  /\ Js.Number "1-2" = Num.NaN /\ Js.Number "1.2.3" = Num.NaN /\ Js.Number "0x1F" = Num.ofNat 31
  /\ Js.Number " 12 " = Num.ofNat 12 /\ Js.Number "5." = Num.ofNat 5 /\ Js.Number "-.5e1" = Num.neg (Num.ofNat 5)
  /\ Js.Number "1e" = Num.NaN /\ Js.Number "-0" = Num.negZero /\ Js.Number "1e400" = Num.infinity false.
Proof. vm_compute. repeat split. Qed.

Example parseFloat_ex : Js.parseFloat "9.20" = S754_finite false 5179139571476070 (-49)
  /\ Js.parseFloat "  12abc" = Num.ofNat 12 /\ Js.parseFloat "abc" = Num.NaN
  /\ Js.parseFloat "Infinity" = Num.infinity false /\ Js.parseFloat "1e3x" = Num.ofNat 1000
  /\ Js.parseFloat "1e+" = Num.ofNat 1 /\ Js.parseFloat "0x10" = Num.zero
  /\ Js.parseFloat "1e-400" = Num.zero /\ Js.parseFloat "5e-324" = S754_finite false 1 (-1074).
Proof. vm_compute. repeat split. Qed.

Example nearest_agrees_div :
  Num.nearest false 1 10 = SFdiv 53 1024 (S754_finite false 1 0) (S754_finite false 10 0)
  /\ Num.nearest false 123456789012345678901234567890 1000
     = SFdiv 53 1024 (S754_finite false 123456789012345678901234567890 0) (S754_finite false 1000 0)
  /\ Num.nearest true 7 3 = SFdiv 53 1024 (S754_finite true 7 0) (S754_finite false 3 0)
  /\ Num.nearest false 9007199254740993 1 = binary_normalize 53 1024 9007199254740993 0 false
  /\ Num.nearest false 1 (2 ^ 1070 * 3) = SFdiv 53 1024 (S754_finite false 1 (-1070)) (S754_finite false 3 0).
Proof. vm_compute. repeat split. Qed.

Example parseCurrency_ex :
  parseCurrency (VString "$1,234.56") = Some (Js.Number "1234.56")
  /\ parseCurrency (VString "(1,234.56)") = Some (Num.neg (Js.Number "1234.56"))
  /\ parseCurrency (VString "-1,234.56") = Some (Num.neg (Js.Number "1234.56"))
  /\ parseCurrency (VString "(-1,234.56)") = Some (Num.neg (Js.Number "1234.56"))
  /\ parseCurrency (VString "") = None /\ parseCurrency (VString "abc") = None
  /\ parseCurrency (VString "1-2") = None.
Proof. vm_compute. repeat split. Qed.

Example formatCurrency_ex :
  formatCurrency (VString "N/A") = "N/A" /\ formatCurrency (VString "1234.565") = "$1,234.57"
  /\ formatCurrency (VString "(1234567.891)") = "-$1,234,567.89" /\ formatCurrency VNull = ""
  /\ formatCurrency (VNumber Num.negZero) = "-$0.00" /\ formatCurrency (VString "0.004") = "$0.00"
  /\ formatCurrency (VNumber (Num.ofNat 1000)) = "$1,000.00" /\ formatCurrency (VString "999") = "$999.00"
  /\ formatCurrency (VString "1e5") = "$15.00" /\ formatCurrency (VObject "5") = "5"
  /\ formatCurrency (VString "5") = "$5.00" /\ formatCurrency (VString "100000") = "$100,000.00".
Proof. vm_compute. repeat split. Qed.

Example parsePercent_ex :
  parsePercent (VString "9.20%") = Some (Js.Number "9.20")
  /\ parsePercent (VNumber (Js.Number "8.5")) = Some (Js.Number "8.5")
  /\ parsePercent (VString "  ") = None
  /\ parsePercent (VString "Infinity") = Some (Num.infinity false)
  /\ parsePercent (VString "bad") = None /\ parsePercent (VString " % 7 %") = Some (Num.ofNat 7).
Proof. vm_compute. repeat split. Qed.

Example totals_ex1 :
  let data : list TableRow :=
    [ {[ "Regular Payment" := VString "$100.00" ]};
      {[ "Regular Payment" := VString "abc" ]};
      {[ "Regular Payment" := VNumber (Num.ofNat 50) ]} ] in
  let t := computeTotals ["Regular Payment"] data in
  regularPaymentTotal t = Num.ofNat 150 /\ loanCount t = 3%nat.
Proof. vm_compute. split; reflexivity. Qed.

Example totals_ex2 :
  let data : list TableRow :=
    [ {[ "Interest Rate" := VString "10%" ]}; {[ "Interest Rate" := VString "bad" ]} ] in
  portfolioYield (computeTotals ["Interest Rate"] data) = Num.ofNat 5.
Proof. vm_compute. reflexivity. Qed.

Example footer_ex :
  let headers := ["Borrower Name"; "Interest Rate"; "Loan Balance"] in
  let data : list TableRow :=
    [ {[ "Borrower Name" := VString "Ann"; "Interest Rate" := VString "10%"; "Loan Balance" := VString "1,000" ]};
      {[ "Borrower Name" := VString "Bob"; "Interest Rate" := VString "9%"; "Loan Balance" := VString "500.5" ]} ] in
  List.map (fun c => ReportPreview.text (ReportPreview.content c)) (ReportPreview.footRow (ReportPreview.render headers data))
    = ["Totals"; "Portfolio Yield: 9.5000% (2 loans)"; "$1,500.50"]
  /\ List.map PdfGenerator.footText (PdfGenerator.foot (PdfGenerator.table headers data))
    = ["Totals"; "Portfolio Yield: 9.5000% (2 loans)"; "$1,500.50"].
Proof. vm_compute. split; reflexivity. Qed.

(** ** Strings: basic facts *)

Section StringFacts.

Lemma app_cons c s t : String c s +:+ t = String c (s +:+ t).
Proof. reflexivity. Qed.

Lemma app_nil_l t : "" +:+ t = t.
Proof. reflexivity. Qed.

Lemma app_nil_r s : s +:+ "" = s.
Proof. induction s as [|c s IH]; [reflexivity|]. rewrite app_cons, IH. reflexivity. Qed.

Lemma app_assoc s t u : (s +:+ t) +:+ u = s +:+ (t +:+ u).
Proof. induction s as [|c s IH]; [reflexivity|]. rewrite !app_cons, IH. reflexivity. Qed.

Lemma rev_append_app s acc : Str.rev_append s acc = Str.rev s +:+ acc.
Proof.
  unfold Str.rev. revert acc.
  induction s as [|c s IH]; intros acc; simpl; [reflexivity|].
  rewrite IH, (IH (String c "")), app_assoc. reflexivity.
Qed.

Lemma rev_cons c s : Str.rev (String c s) = Str.rev s +:+ String c "".
Proof. unfold Str.rev at 1. simpl. apply rev_append_app. Qed.

Lemma rev_app s t : Str.rev (s +:+ t) = Str.rev t +:+ Str.rev s.
Proof.
  induction s as [|c s IH].
  - rewrite app_nil_l. change (Str.rev "") with "". rewrite app_nil_r. reflexivity.
  - rewrite app_cons, !rev_cons, IH, app_assoc. reflexivity.
Qed.

Lemma rev_involutive s : Str.rev (Str.rev s) = s.
Proof.
  induction s as [|c s IH]; [reflexivity|].
  rewrite rev_cons, rev_app, IH. reflexivity.
Qed.

Lemma takeWhile_dropWhile p s : Str.takeWhile p s +:+ Str.dropWhile p s = s.
Proof.
  induction s as [|c s IH]; [reflexivity|]. simpl.
  destruct (p c); [rewrite app_cons, IH|]; reflexivity.
Qed.

Lemma dropWhile_length p s : (String.length (Str.dropWhile p s) <= String.length s)%nat.
Proof. induction s as [|c s IH]; simpl; [lia|]. destruct (p c); simpl; lia. Qed.

End StringFacts.

(** ** The global replacement, one match at a time *)

Section ReplaceFacts.
Variables first rest : ascii -> bool.
Variable f : string -> string.

Lemma replaceScan_inside txt s :
  Str.replaceScan first rest f (Some txt) s
  = f (Str.rev txt +:+ Str.takeWhile rest s)
      +:+ Str.replaceScan first rest f None (Str.dropWhile rest s).
Proof.
  revert txt. induction s as [|c s IH]; intros txt.
  - simpl. rewrite app_nil_r, app_nil_r. reflexivity.
  - cbn [Str.replaceScan Str.takeWhile Str.dropWhile]. destruct (rest c).
    + rewrite IH, rev_cons, app_assoc. reflexivity.
    + rewrite app_nil_r. cbn [Str.replaceScan]. destruct (first c); reflexivity.
Qed.

(** A match starts at a [first] character and runs through the [rest]
    characters after it. *)
Lemma replaceAll_cons c s :
  Str.replaceAll first rest f (String c s)
  = if first c
    then f (String c (Str.takeWhile rest s))
           +:+ Str.replaceAll first rest f (Str.dropWhile rest s)
    else String c (Str.replaceAll first rest f s).
Proof.
  unfold Str.replaceAll. simpl. destruct (first c); [|reflexivity].
  rewrite replaceScan_inside. reflexivity.
Qed.

Lemma replaceAll_nil : Str.replaceAll first rest f "" = "".
Proof. reflexivity. Qed.

End ReplaceFacts.

Section TitleCase.
Import TitleSpec.

Lemma runs_cons c s :
  runs (String c s)
  = let p := if Char.isWhiteSpace c then Char.isWhiteSpace else Char.isNonSpace in
    String c (Str.takeWhile p s) :: runs (Str.dropWhile p s).
Proof.
  revert c. induction s as [|d s IH]; intros c; [destruct (Char.isWhiteSpace c); reflexivity|].
  change (runs (String c (String d s)))
    with (match runs (String d s) with
          | r :: rs => if sameClass c r then String c r :: rs else String c "" :: r :: rs
          | [] => [String c ""]
          end).
  rewrite (IH d). cbv zeta. unfold sameClass, Char.isNonSpace.
  destruct (Char.isWhiteSpace c) eqn:Hc, (Char.isWhiteSpace d) eqn:Hd;
    cbn [Str.takeWhile Str.dropWhile Bool.eqb negb]; rewrite ?Hd; cbn [negb];
    try reflexivity; rewrite (IH d); cbv zeta; rewrite Hd; reflexivity.
Qed.

Lemma titleByWords_cons g c s :
  titleByWords g (String c s)
  = if Char.isWhiteSpace c
    then String c (Str.takeWhile Char.isWhiteSpace s)
           +:+ titleByWords g (Str.dropWhile Char.isWhiteSpace s)
    else g (String c (Str.takeWhile Char.isNonSpace s))
           +:+ titleByWords g (Str.dropWhile Char.isNonSpace s).
Proof.
  unfold titleByWords. rewrite runs_cons. cbn zeta.
  destruct (Char.isWhiteSpace c) eqn:Hc; cbn [List.map concat fold_right isWord];
    unfold Char.isNonSpace; rewrite Hc; reflexivity.
Qed.

Lemma titleCallback_cons c r :
  titleCallback (String c r) = String (Char.toUpper c) (Str.toLowerCase r).
Proof. reflexivity. Qed.

Lemma wordChar_nonSpace c : Char.isWordChar c = true -> Char.isWhiteSpace c = false.
Proof.
  destruct c as [[] [] [] [] [] [] [] []]; vm_compute; congruence.
Qed.

Lemma titleWords_code_aux n : forall s, (String.length s <= n)%nat ->
  Str.replaceAll Char.isWordChar Char.isNonSpace titleCallback s
  = titleByWords capitalizeFromWordChar s.
Proof.
  induction n as [|n IH]; intros s Hn.
  - destruct s; [reflexivity|simpl in Hn; lia].
  - destruct s as [|c s]; [reflexivity|]. simpl in Hn.
    rewrite replaceAll_cons, titleByWords_cons.
    destruct (Char.isWordChar c) eqn:Hw.
    + rewrite (wordChar_nonSpace _ Hw), titleCallback_cons.
      cbn [capitalizeFromWordChar]. rewrite Hw.
      rewrite IH; [reflexivity|].
      pose proof (dropWhile_length Char.isNonSpace s). lia.
    + destruct (Char.isWhiteSpace c) eqn:Hc.
      * rewrite app_cons. f_equal.
        rewrite IH by lia.
        destruct s as [|d s]; [reflexivity|].
        rewrite titleByWords_cons. cbn [Str.takeWhile Str.dropWhile].
        destruct (Char.isWhiteSpace d) eqn:Hd; [reflexivity|].
        rewrite app_nil_l, titleByWords_cons, Hd. reflexivity.
      * cbn [capitalizeFromWordChar]. rewrite Hw, app_cons. f_equal.
        rewrite IH by lia.
        destruct s as [|d s]; [reflexivity|].
        rewrite titleByWords_cons. cbn [Str.takeWhile Str.dropWhile].
        replace (Char.isNonSpace d) with (negb (Char.isWhiteSpace d)) by reflexivity.
        destruct (Char.isWhiteSpace d) eqn:Hd; cbn [negb]; [|reflexivity].
        rewrite titleByWords_cons, Hd. reflexivity.
Qed.

End TitleCase.

(** ** White space, residues and parentheses *)

Section ParserFacts.

Lemma dropWhile_nil p s : Str.dropWhile p s = "" <-> Str.forallb p s = true.
Proof.
  induction s as [|c s IH]; simpl; [tauto|].
  destruct (p c); simpl; [exact IH|]. split; discriminate.
Qed.

Lemma forallb_app p s t : Str.forallb p (s +:+ t) = Str.forallb p s && Str.forallb p t.
Proof.
  induction s as [|c s IH]; [reflexivity|].
  rewrite app_cons. simpl. rewrite IH, andb_assoc. reflexivity.
Qed.

Lemma forallb_rev p s : Str.forallb p (Str.rev s) = Str.forallb p s.
Proof.
  induction s as [|c s IH]; [reflexivity|].
  rewrite rev_cons, forallb_app, IH. simpl. rewrite andb_true_r, andb_comm. reflexivity.
Qed.

Lemma forallb_dropWhile p s :
  Str.forallb p (Str.dropWhile p s) = Str.forallb p s.
Proof. induction s as [|c s IH]; simpl; [reflexivity|]. destruct (p c) eqn:E; simpl; rewrite ?E; auto. Qed.

Lemma rev_nil s : Str.rev s = "" <-> s = "".
Proof.
  split; [|intros ->; reflexivity].
  intros H. apply (f_equal Str.rev) in H. rewrite rev_involutive in H. exact H.
Qed.

(** [value.trim() === ''] says that the string is white space only. *)
Lemma trim_blank s : Str.eqb (Str.trim s) "" = ParseSpec.whitespaceOnly s.
Proof.
  unfold Str.eqb, Str.trim, Str.trimStart, ParseSpec.whitespaceOnly.
  destruct (Str.forallb Char.isWhiteSpace s) eqn:E.
  - apply bool_decide_eq_true. apply rev_nil, dropWhile_nil.
    rewrite forallb_rev, forallb_dropWhile. exact E.
  - apply bool_decide_eq_false. intros H.
    apply rev_nil, dropWhile_nil in H.
    rewrite forallb_rev, forallb_dropWhile in H. congruence.
Qed.

(** Replacing every match by the empty string leaves the characters that
    start no match, when every character a match goes on with could also
    start one. *)
Lemma replaceScan_erase first rest m s :
  (forall c, rest c = true -> first c = true) ->
  Str.replaceScan first rest (fun _ => "") m s
  = Str.filter (fun c => negb (first c)) s.
Proof.
  intros Hsub. revert m. induction s as [|c s IH]; intros m.
  - destruct m; reflexivity.
  - cbn [Str.replaceScan Str.filter].
    destruct m as [txt|].
    + destruct (rest c) eqn:Hr.
      * rewrite (Hsub _ Hr). cbn [negb]. apply IH.
      * destruct (first c); cbn [negb]; rewrite app_nil_l, IH; reflexivity.
    + destruct (first c); cbn [negb]; rewrite IH; reflexivity.
Qed.

Lemma filter_ext p q s : (forall c, p c = q c) -> Str.filter p s = Str.filter q s.
Proof. intros H. induction s as [|c s IH]; simpl; [reflexivity|]. rewrite H, IH. reflexivity. Qed.

Lemma cleaned_residue s :
  Str.replaceAll Char.isNotNumericChar Char.isNotNumericChar (fun _ => "") s
  = ParseSpec.residue s.
Proof.
  unfold Str.replaceAll. rewrite replaceScan_erase by auto.
  apply filter_ext. intros c. apply negb_involutive.
Qed.

Lemma cleaned_percent s :
  Str.replaceAll Char.isPercent (fun _ => false) (fun _ => "") s
  = ParseSpec.withoutPercent s.
Proof. unfold Str.replaceAll. apply replaceScan_erase. discriminate. Qed.

Lemma includes_char (c : ascii) s :
  Str.includes (String c "") s = Str.existsb (fun d => bool_decide (d = c)) s.
Proof.
  induction s as [|d s IH]; [reflexivity|].
  cbn [Str.includes Str.existsb Str.startsWith]. rewrite IH, andb_true_r.
  f_equal. apply bool_decide_ext. split; congruence.
Qed.

Lemma includes_parentheses s :
  Str.includes "(" s && Str.includes ")" s = ParseSpec.hasParentheses s.
Proof. unfold ParseSpec.hasParentheses. rewrite !includes_char. reflexivity. Qed.

Lemma parseCurrency_spec v : parseCurrency v = ParseSpec.parseCurrencySpec v.
Proof.
  destruct v as [| | b | n | s | repr]; try reflexivity.
  unfold parseCurrency, ParseSpec.parseCurrencySpec.
  rewrite trim_blank, cleaned_residue, includes_parentheses.
  destruct (ParseSpec.whitespaceOnly s); [reflexivity|].
  cbv zeta. set (r := ParseSpec.residue s).
  replace (Str.eqb r "" || Str.eqb r "." || Str.eqb r "-")
    with (bool_decide (r = "" \/ r = "." \/ r = "-")).
  2:{ unfold Str.eqb. destruct (bool_decide (r = "")) eqn:E1, (bool_decide (r = ".")) eqn:E2,
        (bool_decide (r = "-")) eqn:E3; cbn [orb];
      try (apply bool_decide_eq_true; first [apply bool_decide_eq_true in E1 | apply bool_decide_eq_true in E2 | apply bool_decide_eq_true in E3]; tauto).
      apply bool_decide_eq_false. apply bool_decide_eq_false in E1, E2, E3. tauto. }
  destruct (bool_decide (r = "" \/ r = "." \/ r = "-")); [reflexivity|].
  destruct (Num.isNaN (Js.Number r)); [reflexivity|].
  destruct (ParseSpec.hasParentheses s && Num.gtZero (Js.Number r)); reflexivity.
Qed.

Lemma parsePercent_spec v : parsePercent v = ParseSpec.parsePercentSpec Num.isNaN v.
Proof.
  destruct v as [| | b | n | s | repr]; try reflexivity.
  unfold parsePercent, ParseSpec.parsePercentSpec.
  rewrite trim_blank, cleaned_percent. reflexivity.
Qed.

End ParserFacts.

(** ** [toTitleCase], [parseCurrency], [parsePercent]: the contracts *)

Lemma capitalize_plain_word w :
  match w with
  | String c _ => Char.isWordChar c = true
  | EmptyString => True
  end ->
  TitleSpec.capitalizeFromWordChar w = TitleSpec.capitalizeFirst w.
Proof. destruct w as [|c r]; [reflexivity|]. cbn. intros ->. reflexivity. Qed.

(** When a word begins with a letter, a digit or an underscore, it is
    capitalized as the specification says. *)
Lemma toTitleCase_plain_words s :
  Forall (fun r => match r with
                   | String c _ => Char.isWhiteSpace c = true \/ Char.isWordChar c = true
                   | EmptyString => True
                   end) (TitleSpec.runs s) ->
  toTitleCase (Some s) = TitleSpec.titleByWords TitleSpec.capitalizeFirst s.
Proof.
  intros H.
  transitivity (TitleSpec.titleByWords TitleSpec.capitalizeFromWordChar s).
  - destruct s; [reflexivity|]. apply (titleWords_code_aux _ _ (le_n _)).
  - unfold TitleSpec.titleByWords. f_equal.
    induction H as [|r rs Hr _ IH]; [reflexivity|].
    cbn [List.map]. rewrite IH. f_equal.
    destruct r as [|c r]; [reflexivity|].
    cbn [TitleSpec.isWord]. unfold Char.isNonSpace.
    destruct Hr as [-> | Hw]; [reflexivity|].
    rewrite (wordChar_nonSpace _ Hw). apply capitalize_plain_word. exact Hw.
Qed.

(** C7, as the specification words it, fails: in the word ["(ABC"] the code
    capitalizes the [A], the first character that [\w] matches, and leaves
    it so; the specification has the first character, ["("], capitalized
    and the rest, ["ABC"], in lower case. *)
Lemma toTitleCase_first_character_counterexample :
  toTitleCase (Some "(ABC") = "(Abc"
  /\ TitleSpec.titleByWords TitleSpec.capitalizeFirst "(ABC" = "(abc"
  /\ toTitleCase (Some "(ABC") <> TitleSpec.titleByWords TitleSpec.capitalizeFirst "(ABC".
Proof. vm_compute. repeat split. discriminate. Qed.

(** C7 (amended): for every string, [toTitleCase] treats each maximal run
    of characters that are not white space as one word; in it the first
    character that is a letter, a digit or an underscore goes to upper case,
    the characters after that one go to lower case, and the characters
    before it stay (a word without such a character stays as it is); white
    space is kept. The empty and the absent input give the empty string, and
    [toTitleCase("loan balance") = "Loan Balance"]. *)
Theorem toTitleCase_words :
  (forall s, toTitleCase (Some s)
             = TitleSpec.titleByWords TitleSpec.capitalizeFromWordChar s)
  /\ toTitleCase None = ""
  /\ toTitleCase (Some "") = ""
  /\ toTitleCase (Some "loan balance") = "Loan Balance"
  /\ toTitleCase (Some "hello-WORLD  (x)") = "Hello-world  (X)".
Proof.
  split; [|repeat split].
  intros s. destruct s; [reflexivity|]. apply (titleWords_code_aux _ _ (le_n _)).
Qed.


(** C5, as the specification words it, fails: ["Infinity"] parses to the
    number Infinity, which is not finite, and [parsePercent] returns it; the
    specification has Unparseable there. *)
Lemma parsePercent_infinity_counterexample :
  parsePercent (VString "Infinity") = Some (Num.infinity false)
  /\ Num.isFinite (Num.infinity false) = false
  /\ ParseSpec.parsePercentSpec (fun x => negb (Num.isFinite x)) (VString "Infinity") = None.
Proof. vm_compute. repeat split. Qed.

(** C5 (amended): [parsePercent] returns a number as it is; it returns
    Unparseable for a value that is neither a number nor a string and for a
    string of white space only; of any other string it removes the percent
    signs, trims the white space, reads the longest leading decimal literal
    as [parseFloat] does, and returns Unparseable exactly when that gives
    NaN (an infinite result is returned). In particular
    [parsePercent("9.20%") = 9.20], [parsePercent(8.5) = 8.5] and
    [parsePercent("  ")] is Unparseable. *)
Theorem parsePercent_contract :
  (forall v, parsePercent v = ParseSpec.parsePercentSpec Num.isNaN v)
  /\ (forall n, parsePercent (VNumber n) = Some n)
  /\ parsePercent (VString "9.20%") = Some (Js.Number "9.20")
  /\ parsePercent (VNumber (Js.Number "8.5")) = Some (Js.Number "8.5")
  /\ parsePercent (VString "  ") = None.
Proof.
  split; [exact parsePercent_spec|].
  split; [reflexivity|]. vm_compute. repeat split.
Qed.

(** ** Roles and totals *)

Section Roles.
Import TableSpec.

Lemma map_fmap {A B} (f : A -> B) (l : list A) : List.map f l = f <$> l.
Proof. reflexivity. Qed.

Lemma find_matchesHeader role headers :
  List.find (matchesHeader role) headers = roleHeader role headers.
Proof. reflexivity. Qed.

(** The header of a role is the first one that matches it. *)
Lemma roleHeader_Some role headers h :
  roleHeader role headers = Some h <->
  exists before after,
    headers = (before ++ h :: after)%list
    /\ Str.toLowerCase h = Str.toLowerCase role
    /\ Forall (fun x => Str.toLowerCase x <> Str.toLowerCase role) before.
Proof.
  unfold roleHeader. induction headers as [|x l IH]; cbn [List.find].
  - split; [discriminate|]. intros (b & a & H & _). destruct b; discriminate.
  - destruct (bool_decide (Str.toLowerCase x = Str.toLowerCase role)) eqn:E.
    + apply bool_decide_eq_true in E. split.
      * intros [= <-]. exists [], l. repeat split; [exact E|constructor].
      * intros (b & a & H & Hh & Hb). destruct b as [|y b].
        -- injection H as -> _. reflexivity.
        -- injection H as -> _. inversion Hb; subst. contradiction.
    + apply bool_decide_eq_false in E. rewrite IH. split.
      * intros (b & a & -> & Hh & Hb). exists (x :: b), a.
        repeat split; [exact Hh|constructor; assumption].
      * intros (b & a & H & Hh & Hb). destruct b as [|y b].
        -- injection H as -> _. contradiction.
        -- injection H as -> ->. inversion Hb; subst. exists b, a. repeat split; assumption.
Qed.

Lemma roleHeader_None role headers :
  roleHeader role headers = None <->
  Forall (fun x => Str.toLowerCase x <> Str.toLowerCase role) headers.
Proof.
  unfold roleHeader. induction headers as [|x l IH]; cbn [List.find].
  - split; [constructor|reflexivity].
  - destruct (bool_decide (Str.toLowerCase x = Str.toLowerCase role)) eqn:E.
    + apply bool_decide_eq_true in E. split; [discriminate|].
      intros H. inversion H; subst. contradiction.
    + apply bool_decide_eq_false in E. rewrite IH. split.
      * intros H. constructor; assumption.
      * intros H. inversion H; subst. assumption.
Qed.

Lemma rolePresent_roleHeader role headers :
  rolePresent role headers = bool_decide (roleHeader role headers <> None).
Proof.
  unfold rolePresent. apply bool_decide_ext.
  rewrite roleHeader_None, map_fmap, list_elem_of_fmap, Forall_forall.
  split.
  - intros (x & Hx & Hin) H. apply (H x); [exact Hin | congruence].
  - intros H. destruct (decide (Exists (fun x => Str.toLowerCase x = Str.toLowerCase role) headers)) as [He|He].
    + apply Exists_exists in He as (x & Hin & Hx). exists x. split; [congruence|exact Hin].
    + exfalso. apply H. intros x Hin Hx. apply He. apply Exists_exists.
      exists x. split; [exact Hin | exact Hx].
Qed.

(** The header found for a role is not the empty string, so the test
    [header ? ... : 0] only asks whether a header was found. *)
Lemma truthy_roleHeader role headers :
  Str.toLowerCase role <> "" ->
  truthyString (roleHeader role headers) = roleHeader role headers.
Proof.
  intros Hrole. destruct (roleHeader role headers) as [h|] eqn:E; [|reflexivity].
  apply roleHeader_Some in E as (_ & _ & _ & Hh & _).
  destruct h; [|reflexivity]. exfalso. apply Hrole. rewrite <- Hh. reflexivity.
Qed.

Lemma orZero_falsyAsZero r : orZero r = falsyAsZero r.
Proof. destruct r as [[]|]; reflexivity. Qed.

Lemma fold_left_contribution (g : TableRow -> Num.number) data z :
  fold_left (fun acc row => Num.add acc (g row)) data z
  = fold_left Num.add (List.map g data) z.
Proof. revert z. induction data as [|row data IH]; intros z; [reflexivity|]. apply IH. Qed.

Lemma column_total parse h data :
  fold_left (fun acc row => Num.add acc (orZero (parse (cell row h)))) data Num.zero
  = columnSum falsyAsZero parse h data.
Proof.
  unfold columnSum, sum. rewrite fold_left_contribution. f_equal.
  apply map_ext. intros row. apply orZero_falsyAsZero.
Qed.

Lemma computeTotals_spec headers data :
  let t := computeTotals headers data in
  regularPaymentTotal t = totalOf falsyAsZero "Regular Payment" headers data
  /\ loanBalanceTotal t = totalOf falsyAsZero "Loan Balance" headers data
  /\ loanCount t = length data
  /\ portfolioYield t = yieldOf falsyAsZero headers data.
Proof.
  cbv zeta. unfold computeTotals, totalOf, yieldOf.
  cbn [regularPaymentTotal loanBalanceTotal loanCount portfolioYield].
  rewrite !find_matchesHeader, !truthy_roleHeader by (vm_compute; discriminate).
  repeat split.
  - destruct (roleHeader "Regular Payment" headers); [apply column_total|reflexivity].
  - destruct (roleHeader "Loan Balance" headers); [apply column_total|reflexivity].
  - destruct (roleHeader "Interest Rate" headers); [|reflexivity].
    destruct data as [|row data]; [reflexivity|].
    change (0 <? length (row :: data))%nat with true. cbv iota.
    rewrite column_total. reflexivity.
Qed.

End Roles.



(** ** The projected rows *)

Section Projection.
Import TableSpec.

Lemma pdf_body_lookup headers data i j :
  PdfGenerator.body (PdfGenerator.table headers data) !! i ≫= (fun r => r !! j)
  = data !! i ≫= (fun row =>
      headers !! j ≫= (fun header =>
        Some (if isCurrency header then VString (formatCurrency (cell row header))
              else nullish (cell row header) (VString "")))).
Proof.
  cbn [PdfGenerator.body PdfGenerator.table]. unfold PdfGenerator.tableData.
  rewrite map_fmap, list_lookup_fmap.
  destruct (data !! i) as [row|]; [|reflexivity]. cbn.
  rewrite map_fmap, list_lookup_fmap.
  destruct (headers !! j) as [header|]; reflexivity.
Qed.

Lemma render_nonempty headers data :
  headers <> [] ->
  ReportPreview.render headers data
  = ReportPreview.TableView
      (List.map ReportPreview.headCell headers)
      (List.map (fun row => List.map (ReportPreview.bodyCell row) headers) (take 50 data))
      (imap (fun index header =>
               ReportPreview.footCell headers (computeTotals headers data)
                 (Z.of_nat index) header) headers)
      (if (50 <? length data)%nat
       then Some ("Mostrando las primeras 50 filas de "
                    +:+ Js.numberToString (Num.ofNat (length data)) +:+ " totales.")
       else None).
Proof. destruct headers; [contradiction|reflexivity]. Qed.

Lemma preview_body_lookup headers data i j :
  headers <> [] ->
  ReportPreview.bodyRows (ReportPreview.render headers data) !! i ≫= (fun r => r !! j)
  = take 50 data !! i ≫= (fun row =>
      headers !! j ≫= (fun header => Some (ReportPreview.bodyCell row header))).
Proof.
  intros Hne. rewrite (render_nonempty _ _ Hne).
  cbn [ReportPreview.bodyRows].
  rewrite map_fmap, list_lookup_fmap.
  destruct (take 50 data !! i) as [row|]; [|reflexivity]. cbn.
  rewrite map_fmap, list_lookup_fmap.
  destruct (headers !! j) as [header|]; reflexivity.
Qed.

Lemma pdf_body_length headers data :
  length (PdfGenerator.body (PdfGenerator.table headers data)) = length data.
Proof. cbn. unfold PdfGenerator.tableData. apply length_map. Qed.

Lemma preview_body_length headers data :
  headers <> [] ->
  length (ReportPreview.bodyRows (ReportPreview.render headers data))
  = Nat.min (length data) 50.
Proof.
  intros Hne. rewrite (render_nonempty _ _ Hne).
  cbn [ReportPreview.bodyRows].
  rewrite length_map, length_take. lia.
Qed.

End Projection.

(** C8: for every selected header list and row list, the table handed to
    the PDF has one row for each row of the data, in the order of the data,
    and in each row one cell for each selected header, in the order of the
    selection: the cell at row [i] and column [j] is the cell of the [i]-th
    row of the data under the [j]-th selected header (formatted as currency
    under the two currency roles). The header line is in the order of the
    selection too. Selecting ["Loan Balance"; "Borrower Name"] yields the
    columns in that order. *)
Theorem projection_preserves_order :
  (forall headers data,
     length (PdfGenerator.body (PdfGenerator.table headers data)) = length data
     /\ Forall (fun r => length r = length headers)
          (PdfGenerator.body (PdfGenerator.table headers data))
     /\ (forall j, PdfGenerator.head (PdfGenerator.table headers data) !! j
                   = match headers !! j with
                     | Some h => Some (toTitleCase (Some h))
                     | None => None
                     end)
     /\ (forall i j,
           PdfGenerator.body (PdfGenerator.table headers data) !! i ≫= (fun r => r !! j)
           = data !! i ≫= (fun row =>
               headers !! j ≫= (fun header =>
                 Some (if isCurrency header then VString (formatCurrency (cell row header))
                       else nullish (cell row header) (VString ""))))))
  /\ (let rows : list TableRow :=
        [ {[ "Borrower Name" := VString "Zoe"; "Loan Balance" := VString "2,000" ]};
          {[ "Borrower Name" := VString "Ann"; "Loan Balance" := VString "(1000)" ]};
          {[ "Borrower Name" := VString "Zoe"; "Loan Balance" := VString "2,000" ]} ] in
      let t := PdfGenerator.table ["Loan Balance"; "Borrower Name"] rows in
      PdfGenerator.head t = ["Loan Balance"; "Borrower Name"]
      /\ PdfGenerator.body t
         = [ [VString "$2,000.00"; VString "Zoe"];
             [VString "-$1,000.00"; VString "Ann"];
             [VString "$2,000.00"; VString "Zoe"] ]).
Proof.
  split; [|vm_compute; split; reflexivity].
  intros headers data. split; [apply pdf_body_length|]. split; [|split].
  - cbn. unfold PdfGenerator.tableData. apply Forall_forall. intros r Hr.
    rewrite map_fmap in Hr. apply list_elem_of_fmap in Hr as (row & -> & _).
    apply length_map.
  - intros j. cbn. rewrite map_fmap, list_lookup_fmap.
    destruct (headers !! j); reflexivity.
  - apply pdf_body_lookup.
Qed.

(** C9, as the specification words it, fails: with no header selected the
    preview renders no table, so a row list of length 1 has no body row and
    one of length 75 has neither 50 body rows nor the indicator. *)
Lemma preview_without_headers_counterexample :
  length (ReportPreview.bodyRows (ReportPreview.render [] [∅])) = 0%nat
  /\ Nat.min (length [(∅ : TableRow)]) 50 = 1%nat
  /\ ReportPreview.render [] (replicate 75 ∅) = ReportPreview.Placeholder
  /\ ReportPreview.rowIndicator (ReportPreview.render [] (replicate 75 ∅)) = None.
Proof. vm_compute. repeat split. Qed.

(** C9 (amended): for every non-empty selected header list and every row
    list of length [n], the preview renders exactly [min n 50] body rows,
    the first ones of the data in order, and, exactly when [n > 50], the
    indicator that says [n] rows exist in total; the PDF table has all [n]
    rows, for any header list. *)
Theorem preview_row_cap headers data :
  headers <> [] ->
  length (ReportPreview.bodyRows (ReportPreview.render headers data))
    = Nat.min (length data) 50
  /\ ReportPreview.bodyRows (ReportPreview.render headers data)
     = List.map (fun row => List.map (ReportPreview.bodyCell row) headers) (take 50 data)
  /\ ReportPreview.rowIndicator (ReportPreview.render headers data)
     = (if (50 <? length data)%nat
        then Some ("Mostrando las primeras 50 filas de "
                     +:+ Js.numberToString (Num.ofNat (length data)) +:+ " totales.")
        else None)
  /\ length (PdfGenerator.body (PdfGenerator.table headers data)) = length data.
Proof.
  intros Hne. split; [apply preview_body_length; exact Hne|].
  rewrite (render_nonempty _ _ Hne).
  repeat split. apply pdf_body_length.
Qed.

Lemma preview_row_cap_witness :
  let headers := ["Borrower Name"] in
  let data : list TableRow := replicate 75 {[ "Borrower Name" := VString "Ann" ]} in
  length (ReportPreview.bodyRows (ReportPreview.render headers data)) = 50%nat
  /\ ReportPreview.rowIndicator (ReportPreview.render headers data)
     = Some "Mostrando las primeras 50 filas de 75 totales."
  /\ length (PdfGenerator.body (PdfGenerator.table headers data)) = 75%nat.
Proof.
  cbv zeta.
  destruct (preview_row_cap ["Borrower Name"]
              (replicate 75 {[ "Borrower Name" := VString "Ann" ]})
              ltac:(discriminate)) as (H1 & _ & H3 & H4).
  split; [exact H1|]. split; [exact H3|exact H4].
Defined.

(** ** The footer row *)

Section Footer.
Import TableSpec.

Lemma findIndexFrom_range {A} (p : A -> bool) l k :
  findIndexFrom p l k = -1 \/ k <= findIndexFrom p l k < k + Z.of_nat (length l).
Proof.
  revert k. induction l as [|x l IH]; intros k; cbn [findIndexFrom length]; [left; reflexivity|].
  destruct (p x); [right; lia|].
  destruct (IH (k + 1)) as [H|H]; [left; exact H|right; lia].
Qed.

Lemma findIndexFrom_lookup {A} (p : A -> bool) l k j :
  0 <= k -> findIndexFrom p l k = k + Z.of_nat j ->
  exists x, l !! j = Some x /\ p x = true.
Proof.
  revert k j. induction l as [|x l IH]; intros k j Hk; cbn [findIndexFrom]; [lia|].
  destruct (p x) eqn:Hp.
  - intros H. assert (j = 0%nat) as -> by lia. exists x. split; [reflexivity|exact Hp].
  - intros H. destruct (findIndexFrom_range p l (k + 1)) as [Hr|Hr]; [lia|].
    destruct j as [|j]; [lia|].
    apply (IH (k + 1) j); lia.
Qed.

Lemma findIndex_range {A} (p : A -> bool) l :
  findIndex p l = -1 \/ 0 <= findIndex p l < Z.of_nat (length l).
Proof. unfold findIndex. destruct (findIndexFrom_range p l 0); [left|right]; lia. Qed.

Lemma findIndex_lookup {A} (p : A -> bool) l i :
  findIndex p l = Z.of_nat i -> exists x, l !! i = Some x /\ p x = true.
Proof. unfold findIndex. intros H. apply (findIndexFrom_lookup p l 0 i); lia. Qed.

(** The column found for a role holds a header of that role. *)
Lemma regularPaymentIndex_header headers i h :
  Z.of_nat i = regularPaymentIndex headers -> headers !! i = Some h ->
  Str.toLowerCase h = "regular payment".
Proof.
  intros Hi Hh. symmetry in Hi. apply findIndex_lookup in Hi as (x & Hx & Hp).
  rewrite Hh in Hx. injection Hx as <-.
  unfold matchesHeader, Str.eqb in Hp. apply bool_decide_eq_true in Hp. exact Hp.
Qed.

Lemma loanBalanceIndex_header headers i h :
  Z.of_nat i = loanBalanceIndex headers -> headers !! i = Some h ->
  Str.toLowerCase h = "loan balance".
Proof.
  intros Hi Hh. symmetry in Hi. apply findIndex_lookup in Hi as (x & Hx & Hp).
  rewrite Hh in Hx. injection Hx as <-.
  unfold matchesHeader, Str.eqb in Hp. apply bool_decide_eq_true in Hp. exact Hp.
Qed.

Lemma role_indices_distinct headers i :
  Z.of_nat i = regularPaymentIndex headers -> Z.of_nat i = loanBalanceIndex headers -> False.
Proof.
  intros Hr Hl. pose proof Hr as Hr'. symmetry in Hr'.
  apply findIndex_lookup in Hr' as (h & Hh & _).
  pose proof (regularPaymentIndex_header _ _ _ Hr Hh) as H1.
  pose proof (loanBalanceIndex_header _ _ _ Hl Hh) as H2.
  rewrite H1 in H2. discriminate.
Qed.

Lemma existsb_lower r headers :
  existsb (fun h => Str.eqb (Str.toLowerCase h) r) headers
  = bool_decide (r ∈ List.map Str.toLowerCase headers).
Proof.
  induction headers as [|x l IH]; cbn [existsb List.map].
  - symmetry. apply bool_decide_eq_false. apply not_elem_of_nil.
  - rewrite IH. unfold Str.eqb.
    destruct (bool_decide (Str.toLowerCase x = r)) eqn:E1; cbn [orb].
    + apply bool_decide_eq_true in E1. symmetry. apply bool_decide_eq_true.
      rewrite E1. apply list_elem_of_here.
    + apply bool_decide_eq_false in E1. apply bool_decide_ext.
      rewrite elem_of_cons. split; [tauto|]. intros [H|H]; [congruence|exact H].
Qed.

Lemma preview_hasInterestRate headers :
  existsb (fun h => Str.eqb (Str.toLowerCase h) "interest rate") headers
  = hasInterestRate headers.
Proof. apply existsb_lower. Qed.

Lemma pdf_hasInterestRate headers :
  match truthyString (List.find (matchesHeader "Interest Rate") headers) with
  | Some _ => true
  | None => false
  end = hasInterestRate headers.
Proof.
  unfold hasInterestRate. rewrite rolePresent_roleHeader, find_matchesHeader.
  rewrite truthy_roleHeader by (vm_compute; discriminate).
  destruct (roleHeader "Interest Rate" headers).
  - symmetry. apply bool_decide_eq_true. discriminate.
  - symmetry. apply bool_decide_eq_false. intros H. apply H. reflexivity.
Qed.

Lemma Zeqb_decide a b : (a =? b) = bool_decide (a = b).
Proof.
  destruct (Z.eqb_spec a b) as [H|H]; symmetry;
    [apply bool_decide_eq_true | apply bool_decide_eq_false]; exact H.
Qed.

Lemma footCell_text headers t i h :
  ReportPreview.text (ReportPreview.content (ReportPreview.footCell headers t (Z.of_nat i) h))
  = previewChoice headers t i.
Proof.
  unfold ReportPreview.footCell, previewChoice.
  rewrite preview_hasInterestRate, !Zeqb_decide.
  fold (regularPaymentIndex headers). fold (loanBalanceIndex headers).
  replace (bool_decide (Z.of_nat i = 0)) with (bool_decide (i = 0%nat))
    by (apply bool_decide_ext; lia).
  replace (bool_decide (Z.of_nat i = 1)) with (bool_decide (i = 1%nat))
    by (apply bool_decide_ext; lia).
  destruct (bool_decide (i = 0%nat)); [reflexivity|].
  destruct (bool_decide (i = 1%nat) && hasInterestRate headers); [reflexivity|].
  destruct (bool_decide (Z.of_nat i = regularPaymentIndex headers)); [reflexivity|].
  destruct (bool_decide (Z.of_nat i = loanBalanceIndex headers)); reflexivity.
Qed.

Lemma preview_footer_text headers data i h :
  headers !! i = Some h ->
  previewFooterText headers data i = Some (previewChoice headers (computeTotals headers data) i).
Proof.
  intros Hh. unfold previewFooterText.
  assert (headers <> []) as Hne by (intros ->; discriminate).
  rewrite (render_nonempty _ _ Hne). cbn [ReportPreview.footRow].
  rewrite list_lookup_imap, Hh. cbn [fmap option_fmap option_map].
  rewrite footCell_text. reflexivity.
Qed.

Lemma pdf_footer_cell headers t i :
  (i < length headers)%nat ->
  exists c, PdfGenerator.footerRow headers t !! i = Some c
            /\ PdfGenerator.footText c = pdfChoice headers t i.
Proof.
  intros Hi. unfold PdfGenerator.footerRow, pdfChoice.
  rewrite pdf_hasInterestRate, !Zeqb_decide.
  fold (regularPaymentIndex headers). fold (loanBalanceIndex headers).
  set (rp := regularPaymentIndex headers). set (lb := loanBalanceIndex headers).
  pose proof (findIndex_range (matchesHeader "Regular Payment") headers) as Hrp.
  pose proof (findIndex_range (matchesHeader "Loan Balance") headers) as Hlb.
  fold (regularPaymentIndex headers) in Hrp. fold (loanBalanceIndex headers) in Hlb.
  fold rp in Hrp. fold lb in Hlb.
  set (n := length headers) in *.
  set (f0 := replicate n (PdfGenerator.Plain "")).
  assert (length f0 = n) as L0 by apply length_replicate.
  assert ((0 <? n)%nat = true) as -> by (apply Nat.ltb_lt; lia).
  set (f1 := <[0%nat := PdfGenerator.Styled "Totals" AlignLeft]> f0).
  assert (length f1 = n) as L1 by (unfold f1; rewrite length_insert; exact L0).
  set (f2 := if (1 <? n)%nat && hasInterestRate headers
             then <[1%nat := PdfGenerator.Styled (yieldText t) AlignLeft]> f1 else f1).
  assert (length f2 = n) as L2
    by (unfold f2; destruct ((1 <? n)%nat && hasInterestRate headers);
        rewrite ?length_insert; exact L1).
  set (f3 := if negb (bool_decide (rp = -1))
             then <[Z.to_nat rp := PdfGenerator.Styled
                                     (formatCurrency (VNumber (regularPaymentTotal t)))
                                     AlignRight]> f2
             else f2).
  assert (length f3 = n) as L3
    by (unfold f3; destruct (negb (bool_decide (rp = -1)));
        rewrite ?length_insert; exact L2).
  (* the last assignment *)
  destruct (bool_decide (Z.of_nat i = lb)) eqn:Elb.
  { apply bool_decide_eq_true in Elb.
    assert (bool_decide (lb = -1) = false) as -> by (apply bool_decide_eq_false; lia).
    cbn [negb]. eexists.
    split; [rewrite <- Elb, Nat2Z.id; apply list_lookup_insert_eq; lia | reflexivity]. }
  apply bool_decide_eq_false in Elb.
  assert (forall c, f3 !! i = Some c ->
            (if negb (bool_decide (lb = -1))
             then <[Z.to_nat lb := PdfGenerator.Styled
                                     (formatCurrency (VNumber (loanBalanceTotal t)))
                                     AlignRight]> f3
             else f3) !! i = Some c) as Hskip4.
  { intros c Hc. destruct (bool_decide (lb = -1)) eqn:E; cbn [negb]; [exact Hc|].
    apply bool_decide_eq_false in E.
    rewrite list_lookup_insert_ne by lia. exact Hc. }
  destruct (bool_decide (Z.of_nat i = rp)) eqn:Erp.
  { apply bool_decide_eq_true in Erp.
    exists (PdfGenerator.Styled (formatCurrency (VNumber (regularPaymentTotal t))) AlignRight).
    split; [|reflexivity]. apply Hskip4.
    unfold f3. assert (bool_decide (rp = -1) = false) as -> by (apply bool_decide_eq_false; lia).
    cbn [negb]. rewrite <- Erp, Nat2Z.id. apply list_lookup_insert_eq. lia. }
  apply bool_decide_eq_false in Erp.
  assert (forall c, f2 !! i = Some c -> f3 !! i = Some c) as Hskip3.
  { intros c Hc. unfold f3. destruct (bool_decide (rp = -1)) eqn:E; cbn [negb]; [exact Hc|].
    apply bool_decide_eq_false in E.
    rewrite list_lookup_insert_ne by lia. exact Hc. }
  destruct (bool_decide (i = 1%nat)) eqn:E1.
  { apply bool_decide_eq_true in E1. subst i.
    assert ((1 <? n)%nat = true) as H1n by (apply Nat.ltb_lt; lia).
    destruct (hasInterestRate headers) eqn:Hir; cbn [andb].
    - exists (PdfGenerator.Styled (yieldText t) AlignLeft). split; [|reflexivity].
      apply Hskip4, Hskip3.
      unfold f2. rewrite H1n. cbn [andb]. apply list_lookup_insert_eq. lia.
    - exists (PdfGenerator.Plain ""). split; [|reflexivity].
      apply Hskip4, Hskip3.
      unfold f2. rewrite H1n. cbn [andb]. unfold f1.
      rewrite list_lookup_insert_ne by lia. apply lookup_replicate_2. lia. }
  apply bool_decide_eq_false in E1. cbn [andb].
  assert (forall c, f1 !! i = Some c -> f2 !! i = Some c) as Hskip2.
  { intros c Hc. unfold f2. destruct ((1 <? n)%nat && hasInterestRate headers); [|exact Hc].
    rewrite list_lookup_insert_ne by lia. exact Hc. }
  destruct (bool_decide (i = 0%nat)) eqn:E0.
  { apply bool_decide_eq_true in E0. subst i.
    exists (PdfGenerator.Styled "Totals" AlignLeft). split; [|reflexivity].
    apply Hskip4, Hskip3, Hskip2.
    unfold f1. apply list_lookup_insert_eq. lia. }
  apply bool_decide_eq_false in E0.
  exists (PdfGenerator.Plain ""). split; [|reflexivity].
  apply Hskip4, Hskip3, Hskip2.
  unfold f1. rewrite list_lookup_insert_ne by lia. apply lookup_replicate_2. lia.
Qed.

Lemma pdf_footer_text headers data i h :
  headers !! i = Some h ->
  pdfFooterText headers data i = Some (pdfChoice headers (computeTotals headers data) i).
Proof.
  intros Hh. unfold pdfFooterText. cbn [PdfGenerator.foot PdfGenerator.table].
  destruct (pdf_footer_cell headers (computeTotals headers data) i) as (c & -> & Hc).
  - apply lookup_lt_is_Some. eauto.
  - rewrite Hc. reflexivity.
Qed.

(** Away from the positions where a label and a total meet, the two
    footers agree. *)
Lemma choices_agree headers t i :
  isLabelPosition headers i && isTotalPosition headers i = false ->
  previewChoice headers t i = pdfChoice headers t i.
Proof.
  unfold isLabelPosition, isTotalPosition, previewChoice, pdfChoice.
  destruct (bool_decide (Z.of_nat i = regularPaymentIndex headers)) eqn:Er,
           (bool_decide (Z.of_nat i = loanBalanceIndex headers)) eqn:El.
  - apply bool_decide_eq_true in Er, El. destruct (role_indices_distinct _ _ Er El).
  - destruct (bool_decide (i = 0%nat)); [discriminate|].
    destruct (bool_decide (i = 1%nat) && hasInterestRate headers); [discriminate|reflexivity].
  - destruct (bool_decide (i = 0%nat)); [discriminate|].
    destruct (bool_decide (i = 1%nat) && hasInterestRate headers); [discriminate|reflexivity].
  - intros _. destruct (bool_decide (i = 0%nat)) eqn:E0, (bool_decide (i = 1%nat)) eqn:E1;
      cbn [andb]; try reflexivity.
    apply bool_decide_eq_true in E0, E1. lia.
Qed.

End Footer.

(** C3, as the specification words it, fails: when Loan Balance is the
    only (so the first) selected column, the specification asks the first
    column to hold "Totals" and the Loan Balance column to hold the total,
    which is one cell. The preview keeps the label and shows no Loan
    Balance total; the PDF footer holds the total and no label. *)
Lemma footer_first_column_counterexample :
  let headers := ["Loan Balance"] in
  let data : list TableRow := [ {[ "Loan Balance" := VString "1,000" ]} ] in
  TableSpec.loanBalanceIndex headers = 0
  /\ formatCurrency (VNumber (loanBalanceTotal (computeTotals headers data))) = "$1,000.00"
  /\ TableSpec.previewFooterText headers data 0 = Some "Totals"
  /\ TableSpec.previewFooterText headers data 0
     <> Some (formatCurrency (VNumber (loanBalanceTotal (computeTotals headers data))))
  /\ TableSpec.pdfFooterText headers data 0 = Some "$1,000.00"
  /\ TableSpec.pdfFooterText headers data 0 <> Some "Totals".
Proof. vm_compute. repeat split; discriminate. Qed.

(** C3 (amended): for every selected header list and every position [i] in
    it, in the preview and in the PDF alike: the first column holds
    "Totals" unless it is the column of the Regular Payment or the Loan
    Balance role; the second column, when Interest Rate is among the
    selected headers, holds the text with the yield to four decimals and the
    loan count, unless it is such a column; the column of the Regular
    Payment role (the first header that matches it without regard to case)
    holds the formatted Regular Payment total, and that of Loan Balance the
    formatted Loan Balance total, unless the column is the first one or a
    second one that shows the yield; every cell that is none of these is
    empty. All of it is computed from the selected headers; when Regular
    Payment is not selected, no cell is the Regular Payment cell and neither
    footer depends on the Regular Payment total. *)
Theorem footer_layout headers data i h :
  headers !! i = Some h ->
  let t := computeTotals headers data in
  let shows x :=
    TableSpec.previewFooterText headers data i = Some x
    /\ TableSpec.pdfFooterText headers data i = Some x in
  (i = 0%nat -> TableSpec.isTotalPosition headers i = false -> shows "Totals")
  /\ (i = 1%nat -> TableSpec.hasInterestRate headers = true ->
      TableSpec.isTotalPosition headers i = false -> shows (yieldText t))
  /\ (Z.of_nat i = TableSpec.regularPaymentIndex headers ->
      TableSpec.isLabelPosition headers i = false ->
      shows (formatCurrency (VNumber (regularPaymentTotal t))))
  /\ (Z.of_nat i = TableSpec.loanBalanceIndex headers ->
      TableSpec.isLabelPosition headers i = false ->
      shows (formatCurrency (VNumber (loanBalanceTotal t))))
  /\ (TableSpec.isLabelPosition headers i = false ->
      TableSpec.isTotalPosition headers i = false -> shows "")
  /\ (TableSpec.regularPaymentIndex headers = -1 ->
      ReportPreview.key (ReportPreview.footCell headers t (Z.of_nat i) h) <> "total-rp"
      /\ forall x,
           ReportPreview.footCell headers (TableSpec.withRegularPaymentTotal x t) (Z.of_nat i) h
           = ReportPreview.footCell headers t (Z.of_nat i) h
           /\ PdfGenerator.footerRow headers (TableSpec.withRegularPaymentTotal x t)
              = PdfGenerator.footerRow headers t).
Proof.
  intros Hh t shows.
  assert (forall x, TableSpec.previewChoice headers t i = x ->
                    TableSpec.isLabelPosition headers i && TableSpec.isTotalPosition headers i = false ->
                    shows x) as Hshow.
  { intros x Hx Hc. unfold shows.
    rewrite (preview_footer_text _ _ _ _ Hh), (pdf_footer_text _ _ _ _ Hh).
    fold t. rewrite <- (choices_agree _ _ _ Hc), Hx. split; reflexivity. }
  unfold TableSpec.isLabelPosition, TableSpec.isTotalPosition in *.
  unfold TableSpec.previewChoice in Hshow.
  refine (conj _ (conj _ (conj _ (conj _ (conj _ _))))).
  - intros -> Ht. apply Hshow; [reflexivity|]. rewrite Ht. apply andb_false_r.
  - intros -> Hir Ht. apply Hshow; [rewrite Hir; reflexivity|]. rewrite Ht. apply andb_false_r.
  - intros Hi Hl. apply Hshow; [|rewrite Hl; reflexivity].
    apply orb_false_elim in Hl as [-> ->].
    rewrite (bool_decide_eq_true_2 _ Hi). reflexivity.
  - intros Hi Hl. apply Hshow; [|rewrite Hl; reflexivity].
    apply orb_false_elim in Hl as [-> ->].
    rewrite (bool_decide_eq_true_2 _ Hi).
    destruct (bool_decide (Z.of_nat i = TableSpec.regularPaymentIndex headers)) eqn:E; [|reflexivity].
    apply bool_decide_eq_true in E. destruct (role_indices_distinct _ _ E Hi).
  - intros Hl Ht. apply Hshow; [|rewrite Hl; reflexivity].
    apply orb_false_elim in Hl as [-> ->]. apply orb_false_elim in Ht as [-> ->]. reflexivity.
  - intros Hrp.
    assert ((Z.of_nat i =? -1) = false) as Hneg by (apply Z.eqb_neq; lia).
    split; [|intros x; split].
    + unfold ReportPreview.footCell.
      fold (TableSpec.regularPaymentIndex headers). rewrite Hrp, Hneg.
      destruct (Z.of_nat i =? 0); [cbn [ReportPreview.key]; done|].
      destruct ((Z.of_nat i =? 1) && _); [cbn [ReportPreview.key]; done|].
      destruct (Z.of_nat i =? findIndex _ _); cbn [ReportPreview.key]; rewrite ?app_cons; done.
    + unfold ReportPreview.footCell.
      fold (TableSpec.regularPaymentIndex headers). rewrite Hrp, Hneg.
      reflexivity.
    + unfold PdfGenerator.footerRow.
      fold (TableSpec.regularPaymentIndex headers). rewrite Hrp. reflexivity.
Qed.

Lemma footer_layout_witness :
  let headers := ["Borrower Name"; "Interest Rate"; "Loan Balance"] in
  let data : list TableRow :=
    [ {[ "Borrower Name" := VString "Ann"; "Interest Rate" := VString "10%";
         "Loan Balance" := VString "1,000" ]};
      {[ "Borrower Name" := VString "Bob"; "Interest Rate" := VString "9%";
         "Loan Balance" := VString "500.5" ]} ] in
  TableSpec.previewFooterText headers data 2 = Some "$1,500.50"
  /\ TableSpec.pdfFooterText headers data 2 = Some "$1,500.50".
Proof.
  cbv zeta.
  destruct (footer_layout ["Borrower Name"; "Interest Rate"; "Loan Balance"]
              [ {[ "Borrower Name" := VString "Ann"; "Interest Rate" := VString "10%";
                   "Loan Balance" := VString "1,000" ]};
                {[ "Borrower Name" := VString "Bob"; "Interest Rate" := VString "9%";
                   "Loan Balance" := VString "500.5" ]} ]
              2%nat "Loan Balance" eq_refl) as (_ & _ & _ & H & _).
  exact (H eq_refl eq_refl).
Defined.

(** ** Preview and PDF side by side *)

(** Within the row cap, a body cell of the PDF prints the text of the
    preview's cell. *)
Lemma body_texts_agree headers data i j :
  headers <> [] -> (i < 50)%nat ->
  TableSpec.previewBodyText headers data i j = TableSpec.pdfBodyText headers data i j.
Proof.
  intros Hne Hi. unfold TableSpec.previewBodyText, TableSpec.pdfBodyText.
  rewrite (render_nonempty _ _ Hne).
  cbn [ReportPreview.bodyRows PdfGenerator.body PdfGenerator.table].
  unfold PdfGenerator.tableData.
  rewrite !map_fmap, !list_lookup_fmap, lookup_take_lt by exact Hi.
  destruct (data !! i) as [row|]; [|reflexivity].
  cbn [fmap option_fmap option_map].
  rewrite !map_fmap, !list_lookup_fmap.
  destruct (headers !! j) as [header|]; [|reflexivity].
  cbn [fmap option_fmap option_map]. f_equal.
  unfold ReportPreview.bodyCell, PdfGenerator.bodyText, isCurrency. cbn [ReportPreview.text].
  destruct (Str.eqb _ _ || Str.eqb _ _); reflexivity.
Qed.

(** The columns the PDF aligns to the right are those the preview does. *)
Lemma columnStyles_lookup headers j :
  PdfGenerator.columnStylesOf headers !! j
  = match headers !! j with
    | Some h => if isRightAligned h then Some AlignRight else None
    | None => None
    end.
Proof.
  unfold PdfGenerator.columnStylesOf.
  assert (forall (l : list string) (k : nat) (styles : gmap nat Align),
            fold_left (fun styles '(index, header) =>
                         if isRightAligned header then <[index := AlignRight]> styles else styles)
              (imap (fun index header => (k + index, header)%nat) l) styles !! j
            = match (if decide (k <= j)%nat then l !! (j - k)%nat else None) with
              | Some h => if isRightAligned h then Some AlignRight else styles !! j
              | None => styles !! j
              end) as Hgen.
  { induction l as [|x l IH]; intros k styles.
    - cbn. destruct (decide _); reflexivity.
    - cbn [imap fold_left].
      rewrite (imap_ext _ (fun index header => (S k + index, header)%nat))
        by (intros; cbn; f_equal; lia).
      rewrite IH. rewrite Nat.add_0_r.
      destruct (decide (S k <= j)%nat) as [H1|H1], (decide (k <= j)%nat) as [H2|H2]; try lia.
      + replace (j - k)%nat with (S (j - S k)) by lia. cbn [lookup list_lookup].
        destruct (l !! (j - S k)%nat) as [h|] eqn:E.
        * destruct (isRightAligned h); [reflexivity|].
          destruct (isRightAligned x); [apply lookup_insert_ne; lia|reflexivity].
        * destruct (isRightAligned x); [apply lookup_insert_ne; lia|reflexivity].
      + assert (j = k) as -> by lia. rewrite Nat.sub_diag. cbn [lookup list_lookup].
        destruct (isRightAligned x); [apply lookup_insert_eq|reflexivity].
      + destruct (isRightAligned x); [apply lookup_insert_ne; lia|reflexivity]. }
  specialize (Hgen headers 0%nat ∅). cbn [Nat.add] in Hgen.
  rewrite Hgen, Nat.sub_0_r.
  destruct (decide (0 <= j)%nat); [|lia].
  destruct (headers !! j) as [h|]; [|apply lookup_empty].
  destruct (isRightAligned h); [reflexivity|apply lookup_empty].
Qed.

Lemma alignment_agrees headers j h :
  headers !! j = Some h ->
  (PdfGenerator.columnStylesOf headers !! j = Some AlignRight
   <-> ReportPreview.alignOf h = AlignRight).
Proof.
  intros Hh. rewrite columnStyles_lookup, Hh. unfold ReportPreview.alignOf.
  destruct (isRightAligned h); split; (reflexivity || discriminate).
Qed.

(** C4: the property fails on the code. With Regular Payment as the first
    selected column, the body cells and the alignment of preview and PDF
    agree, and the footers do not: the preview shows "Totals" in the first
    column, the PDF the Regular Payment total. *)
Theorem preview_pdf_footer_divergence :
  let headers := ["Regular Payment"; "Borrower Name"] in
  let data : list TableRow :=
    [ {[ "Regular Payment" := VString "100"; "Borrower Name" := VString "Ann" ]} ] in
  TableSpec.previewBodyText headers data 0 0 = TableSpec.pdfBodyText headers data 0 0
  /\ TableSpec.previewFooterText headers data 0 = Some "Totals"
  /\ TableSpec.pdfFooterText headers data 0 = Some "$100.00"
  /\ TableSpec.previewFooterText headers data 0 <> TableSpec.pdfFooterText headers data 0.
Proof. vm_compute. repeat split. discriminate. Qed.

(** ** Decimal digits *)

Section Digits.
Import Num Js.

Lemma digitChar_isDigit d : 0 <= d < 10 -> Char.isDigit (digitChar d) = true.
Proof.
  intros H.
  assert (d = 0 \/ d = 1 \/ d = 2 \/ d = 3 \/ d = 4 \/ d = 5 \/ d = 6 \/ d = 7 \/ d = 8 \/ d = 9)
    as Hd by lia.
  repeat (destruct Hd as [-> | Hd]; [reflexivity|]). subst d. reflexivity.
Qed.

Lemma digitsFuel_isDigit fuel : forall n acc,
  0 <= n -> Str.forallb Char.isDigit acc = true ->
  Str.forallb Char.isDigit (digitsFuel fuel n acc) = true.
Proof.
  induction fuel as [|fuel IH]; intros n acc Hn Hacc; cbn [digitsFuel].
  - cbn [Str.forallb]. rewrite digitChar_isDigit, Hacc; [reflexivity|].
    apply Z.mod_pos_bound. lia.
  - destruct (n <? 10) eqn:E.
    + apply Z.ltb_lt in E. cbn [Str.forallb]. rewrite digitChar_isDigit, Hacc; [reflexivity|lia].
    + apply IH; [apply Z.div_pos; lia|].
      cbn [Str.forallb]. rewrite digitChar_isDigit, Hacc; [reflexivity|].
      apply Z.mod_pos_bound. lia.
Qed.

Lemma digits_isDigit n : 0 <= n -> Str.forallb Char.isDigit (digits n) = true.
Proof. intros H. apply digitsFuel_isDigit; [exact H|reflexivity]. Qed.

Lemma digitsFuel_nonempty fuel n acc : digitsFuel fuel n acc <> "".
Proof.
  revert n acc. induction fuel as [|fuel IH]; intros n acc; cbn [digitsFuel]; [discriminate|].
  destruct (n <? 10); [discriminate|apply IH].
Qed.

Lemma digits_two n :
  0 <= n < 100 -> (1 <= String.length (digits n) <= 2)%nat.
Proof.
  intros H. unfold digits.
  destruct (Z.ltb_spec n 10) as [Hlt|Hge].
  - destruct (Z.to_nat (Z.log2 n)); cbn [digitsFuel].
    + cbn. lia.
    + apply Z.ltb_lt in Hlt. rewrite Hlt. cbn. lia.
  - assert (3 <= Z.log2 n) by (change 3 with (Z.log2 8); apply Z.log2_le_mono; lia).
    destruct (Z.to_nat (Z.log2 n)) as [|fuel] eqn:E; [lia|].
    cbn [digitsFuel]. apply Z.ltb_ge in Hge. rewrite Hge.
    assert (n / 10 < 10) as Hq by (apply Z.div_lt_upper_bound; lia).
    destruct fuel; cbn [digitsFuel].
    + cbn. lia.
    + apply Z.ltb_lt in Hq. rewrite Hq. cbn. lia.
Qed.

Lemma forallb_zeros n : Str.forallb Char.isDigit (zeros n) = true.
Proof. induction n as [|n IH]; [reflexivity|]. cbn [zeros Str.forallb]. rewrite IH. reflexivity. Qed.

Lemma length_app s t : String.length (s +:+ t) = (String.length s + String.length t)%nat.
Proof. induction s as [|c s IH]; [reflexivity|]. rewrite app_cons. cbn. rewrite IH. reflexivity. Qed.

Lemma length_zeros n : String.length (zeros n) = n.
Proof. induction n as [|n IH]; [reflexivity|]. cbn. rewrite IH. reflexivity. Qed.

Lemma padStart_two n :
  0 <= n < 100 ->
  String.length (padStart 2 (digits n)) = 2%nat
  /\ Str.forallb Char.isDigit (padStart 2 (digits n)) = true.
Proof.
  intros H. unfold padStart. split.
  - rewrite length_app, length_zeros. pose proof (digits_two n H). lia.
  - rewrite forallb_app, forallb_zeros, digits_isDigit by lia. reflexivity.
Qed.

Lemma groupRev_grouped r : forall i,
  (i <= 3)%nat -> Str.forallb Char.isDigit r = true -> (r <> "" \/ 1 <= i)%nat ->
  FormatSpec.groupedRev (groupRev r i) i = true.
Proof.
  induction r as [|c r IH]; intros i Hi Hd Hne.
  - cbn [groupRev FormatSpec.groupedRev]. apply Nat.ltb_lt. destruct Hne as [Hne|Hne]; [contradiction|lia].
  - cbn [Str.forallb] in Hd. apply andb_true_iff in Hd as [Hc Hr].
    destruct i as [|[|[|[|i]]]]; [| | | |lia]; cbn [groupRev FormatSpec.groupedRev].
    + rewrite Hc. apply IH; [lia|exact Hr|right; lia].
    + rewrite Hc. apply IH; [lia|exact Hr|right; lia].
    + rewrite Hc. apply IH; [lia|exact Hr|right; lia].
    + rewrite bool_decide_eq_true_2 by reflexivity. rewrite Hc.
      apply IH; [lia|exact Hr|right; lia].
Qed.

Lemma groupThousands_grouped ds :
  Str.forallb Char.isDigit ds = true -> ds <> "" ->
  FormatSpec.grouped (groupThousands ds) = true.
Proof.
  intros Hd Hne. unfold FormatSpec.grouped, groupThousands.
  rewrite rev_involutive. apply groupRev_grouped; [lia|rewrite forallb_rev; exact Hd|].
  left. intros H. apply Hne. apply (proj1 (rev_nil ds)). exact H.
Qed.

Lemma roundHalfUp_nonneg p q : 0 <= p -> 0 < q -> 0 <= roundHalfUp p q.
Proof. intros Hp Hq. unfold roundHalfUp. apply Z.div_pos; lia. Qed.

Lemma fraction_pos x : 0 <= fst (fraction x) /\ 0 < snd (fraction x).
Proof.
  destruct x as [s|s| |s m e]; cbn [fraction fst snd]; try lia.
  unfold scaled. destruct (Z.ltb_spec (- e) 0); cbn [fst snd].
  - split; [apply Z.mul_nonneg_nonneg; [lia|apply Z.pow_nonneg; lia]|lia].
  - split; [lia|]. apply Z.mul_pos_pos; [lia|apply Z.pow_pos_nonneg; lia].
Qed.

Lemma cents_nonneg x : 0 <= cents x.
Proof.
  unfold cents. pose proof (fraction_pos x) as [Hp Hq].
  destruct (fraction x) as [p q]. cbn [fst snd] in *.
  apply roundHalfUp_nonneg; lia.
Qed.

Lemma formatCents_shape sg c : 0 <= c -> FormatSpec.usdShape sg (formatCents sg c).
Proof.
  intros Hc. exists (groupThousands (digits (c / 100))), (padStart 2 (digits (c mod 100))).
  assert (0 <= c mod 100 < 100) as Hm by (apply Z.mod_pos_bound; lia).
  destruct (padStart_two _ Hm) as [Hl Hd].
  split; [|split; [|split; assumption]].
  - unfold formatCents. destruct sg; reflexivity.
  - apply groupThousands_grouped.
    + apply digits_isDigit. apply Z.div_pos; lia.
    + apply digitsFuel_nonempty.
Qed.

Lemma formatUSD_shape x :
  isFinite x = true -> FormatSpec.usdShape (signBit x) (formatUSD x).
Proof.
  intros Hf. destruct x as [s|s| |s m e]; try discriminate;
    apply formatCents_shape, cents_nonneg.
Qed.


End Digits.






(** ** Reading a formatted amount back *)

Section ReadBack.
Import Num Js.

Lemma filter_app p s t : Str.filter p (s +:+ t) = Str.filter p s +:+ Str.filter p t.
Proof.
  induction s as [|c s IH]; [reflexivity|].
  rewrite app_cons. cbn [Str.filter]. destruct (p c); rewrite IH; reflexivity.
Qed.














End ReadBack.

Section Scanning.
Import Num Js ReadSpec.













End Scanning.

Section NumberOfResidue.
Import Num Js ReadSpec.











End NumberOfResidue.

(** ** Rounding, in the real numbers *)

Section RealFacts.
Local Open Scope R_scope.

Lemma pow2_pos e : 0 < powerRZ 2 e.
Proof. apply powerRZ_lt. lra. Qed.

Lemma pow2_add a b : powerRZ 2 (a + b) = powerRZ 2 a * powerRZ 2 b.
Proof. apply powerRZ_add. lra. Qed.

Lemma pow2_IZR n : (0 <= n)%Z -> powerRZ 2 n = IZR (2 ^ n).
Proof.
  intros H. rewrite <- (Z2Nat.id n H), <- pow_powerRZ, pow_IZR. reflexivity.
Qed.

Lemma pow2_ge_1 n : (0 <= n)%Z -> 1 <= powerRZ 2 n.
Proof.
  intros H. rewrite (pow2_IZR n H). apply IZR_le.
  pose proof (Z.pow_pos_nonneg 2 n). lia.
Qed.

Lemma pow2_le a b : (a <= b)%Z -> powerRZ 2 a <= powerRZ 2 b.
Proof.
  intros H. replace b with (a + (b - a))%Z by lia. rewrite pow2_add.
  pose proof (pow2_pos a). pose proof (pow2_ge_1 (b - a) ltac:(lia)). nra.
Qed.

Lemma pow2_lt a b : (a < b)%Z -> powerRZ 2 a < powerRZ 2 b.
Proof.
  intros H. apply Rlt_le_trans with (powerRZ 2 (a + 1)); [|apply pow2_le; lia].
  rewrite pow2_add. change (powerRZ 2 1) with (2 * 1). pose proof (pow2_pos a). lra.
Qed.


Lemma pow2_opp e : powerRZ 2 (- e) = / powerRZ 2 e.
Proof. apply powerRZ_neg'. Qed.

Lemma pow2_opp_mul e : powerRZ 2 e * powerRZ 2 (- e) = 1.
Proof. rewrite <- pow2_add. replace (e + - e)%Z with 0%Z by lia. reflexivity. Qed.

(** The real quotient of [scaled p q e]. *)
Lemma scaled_real p q e :
  (0 < q)%Z ->
  (0 < snd (Num.scaled p q e))%Z
  /\ IZR (fst (Num.scaled p q e))
     = IZR p / IZR q * powerRZ 2 (- e) * IZR (snd (Num.scaled p q e)).
Proof.
  intros Hq. unfold Num.scaled. apply IZR_lt in Hq as Hq'.
  destruct (Z.ltb_spec e 0) as [He|He]; cbn [fst snd].
  - split; [exact Hq|]. rewrite mult_IZR, <- pow2_IZR by lia. field. lra.
  - split; [apply Z.mul_pos_pos; [exact Hq|apply Z.pow_pos_nonneg; lia]|].
    rewrite mult_IZR, <- pow2_IZR by lia.
    replace (IZR p / IZR q * powerRZ 2 (- e) * (IZR q * powerRZ 2 e))
      with (IZR p / IZR q * IZR q * (powerRZ 2 e * powerRZ 2 (- e))) by ring.
    rewrite pow2_opp_mul. field. lra.
Qed.



Lemma roundHalfUp_unique p q n :
  (0 < q)%Z ->
  IZR n * IZR q <= IZR p + IZR q / 2 < (IZR n + 1) * IZR q ->
  Js.roundHalfUp p q = n.
Proof.
  intros Hq [H1 H2]. unfold Js.roundHalfUp.
  assert (n * (2 * q) <= 2 * p + q)%Z as Hlo.
  { apply le_IZR. rewrite !mult_IZR, plus_IZR, mult_IZR. lra. }
  assert (2 * p + q < (n + 1) * (2 * q))%Z as Hhi.
  { apply lt_IZR. rewrite !mult_IZR, !plus_IZR, mult_IZR. lra. }
  symmetry. apply (Z.div_unique_pos _ _ n (2 * p + q - n * (2 * q))); lia.
Qed.



End RealFacts.

Section NearestFacts.
Import Num Js RealSpec.
Local Open Scope R_scope.








End NearestFacts.

Section RoundTrip.
Import Num Js RealSpec ReadSpec.
Local Open Scope R_scope.






End RoundTrip.

Section Idempotence.
Import Num Js RealSpec ReadSpec.











End Idempotence.




(** ** Further properties of [toTitleCase] *)

Section TitleCaseMore.

Lemma toUpper_wordChar c :
  Char.isWordChar c = true -> Char.isWordChar (Char.toUpper c) = true.
Proof. destruct c as [[] [] [] [] [] [] [] []]; vm_compute; congruence. Qed.

Lemma toUpper_idempotent c : Char.toUpper (Char.toUpper c) = Char.toUpper c.
Proof. destruct c as [[] [] [] [] [] [] [] []]; vm_compute; reflexivity. Qed.

Lemma toLower_idempotent c : Char.toLower (Char.toLower c) = Char.toLower c.
Proof. destruct c as [[] [] [] [] [] [] [] []]; vm_compute; reflexivity. Qed.

Lemma toLower_toUpper c : Char.toLower (Char.toUpper c) = Char.toLower c.
Proof. destruct c as [[] [] [] [] [] [] [] []]; vm_compute; reflexivity. Qed.

Lemma toLower_nonSpace c : Char.isNonSpace (Char.toLower c) = Char.isNonSpace c.
Proof. destruct c as [[] [] [] [] [] [] [] []]; vm_compute; reflexivity. Qed.

Lemma toLowerCase_idempotent s :
  Str.toLowerCase (Str.toLowerCase s) = Str.toLowerCase s.
Proof.
  induction s as [|c s IH]; [reflexivity|].
  cbn [Str.toLowerCase Str.map] in *. rewrite toLower_idempotent. f_equal. exact IH.
Qed.

Lemma toLowerCase_app s t :
  Str.toLowerCase (s +:+ t) = Str.toLowerCase s +:+ Str.toLowerCase t.
Proof.
  induction s as [|c s IH]; [reflexivity|].
  rewrite app_cons. cbn [Str.toLowerCase Str.map] in *. rewrite app_cons. f_equal. exact IH.
Qed.

Lemma toLowerCase_length s : String.length (Str.toLowerCase s) = String.length s.
Proof. induction s as [|c s IH]; [reflexivity|]. cbn in *. f_equal. exact IH. Qed.

Lemma string_length_app s t :
  String.length (s +:+ t) = (String.length s + String.length t)%nat.
Proof. induction s as [|c s IH]; [reflexivity|]. rewrite app_cons. cbn. f_equal. exact IH. Qed.

Lemma takeWhile_run w t :
  Str.forallb Char.isNonSpace w = true -> stops t ->
  Str.takeWhile Char.isNonSpace (w +:+ t) = w.
Proof.
  intros Hw Ht. induction w as [|c w IH].
  - rewrite app_nil_l. destruct t as [|d t]; [reflexivity|].
    cbn [Str.takeWhile]. cbn in Ht. rewrite Ht. reflexivity.
  - rewrite app_cons. cbn [Str.forallb] in Hw. apply andb_true_iff in Hw as [Hc Hw].
    cbn [Str.takeWhile]. rewrite Hc. f_equal. exact (IH Hw).
Qed.

Lemma dropWhile_run w t :
  Str.forallb Char.isNonSpace w = true -> stops t ->
  Str.dropWhile Char.isNonSpace (w +:+ t) = t.
Proof.
  intros Hw Ht. induction w as [|c w IH].
  - rewrite app_nil_l. destruct t as [|d t]; [reflexivity|].
    cbn [Str.dropWhile]. cbn in Ht. rewrite Ht. reflexivity.
  - rewrite app_cons. cbn [Str.forallb] in Hw. apply andb_true_iff in Hw as [Hc Hw].
    cbn [Str.dropWhile]. rewrite Hc. exact (IH Hw).
Qed.

Lemma forallb_takeWhile p s : Str.forallb p (Str.takeWhile p s) = true.
Proof.
  induction s as [|c s IH]; [reflexivity|]. cbn [Str.takeWhile].
  destruct (p c) eqn:E; [|reflexivity]. cbn [Str.forallb]. rewrite E. exact IH.
Qed.

Lemma forallb_toLowerCase s :
  Str.forallb Char.isNonSpace (Str.toLowerCase s) = Str.forallb Char.isNonSpace s.
Proof.
  induction s as [|c s IH]; [reflexivity|].
  cbn [Str.toLowerCase Str.map Str.forallb] in *. rewrite toLower_nonSpace. f_equal. exact IH.
Qed.

Lemma stops_dropWhile s : stops (Str.dropWhile Char.isNonSpace s).
Proof.
  induction s as [|c s IH]; [exact I|]. cbn [Str.dropWhile].
  destruct (Char.isNonSpace c) eqn:E; [exact IH|exact E].
Qed.

Lemma toTitleCase_titled s : toTitleCase (Some s) = titled s.
Proof. destruct s; reflexivity. Qed.

Lemma nonSpace_not_wordChar c : Char.isNonSpace c = false -> Char.isWordChar c = false.
Proof. destruct c as [[] [] [] [] [] [] [] []]; vm_compute; congruence. Qed.

Lemma stops_titled t : stops t -> stops (titled t).
Proof.
  destruct t as [|c t]; [intros _; exact I|]. intros Hc. cbn in Hc.
  unfold titled. rewrite replaceAll_cons, (nonSpace_not_wordChar _ Hc). exact Hc.
Qed.

Lemma titled_facts n : forall s, (String.length s <= n)%nat ->
  String.length (titled s) = String.length s
  /\ titled (titled s) = titled s
  /\ Str.toLowerCase (titled s) = Str.toLowerCase s.
Proof.
  induction n as [|n IH]; intros s Hn.
  - destruct s; [repeat split|simpl in Hn; lia].
  - destruct s as [|c s]; [repeat split|]. simpl in Hn.
    unfold titled. rewrite replaceAll_cons.
    destruct (Char.isWordChar c) eqn:Hw.
    + rewrite titleCallback_cons, app_cons. fold (titled (Str.dropWhile Char.isNonSpace s)).
      set (w := Str.takeWhile Char.isNonSpace s).
      set (t := Str.dropWhile Char.isNonSpace s).
      assert (String.length t <= n)%nat as Ht
        by (pose proof (dropWhile_length Char.isNonSpace s); unfold t; lia).
      destruct (IH t Ht) as (IH1 & IH2 & IH3).
      assert (w +:+ t = s) as Hs by apply takeWhile_dropWhile.
      assert (Str.forallb Char.isNonSpace (Str.toLowerCase w) = true) as Hlw
        by (rewrite forallb_toLowerCase; apply forallb_takeWhile).
      assert (stops (titled t)) as Hst by (apply stops_titled, stops_dropWhile).
      refine (conj _ (conj _ _)).
      * cbn [String.length]. f_equal.
        rewrite string_length_app, toLowerCase_length, IH1, <- string_length_app, Hs.
        reflexivity.
      * rewrite replaceAll_cons, (toUpper_wordChar _ Hw), titleCallback_cons, app_cons.
        rewrite takeWhile_run, dropWhile_run by assumption.
        fold (titled (titled t)).
        rewrite toUpper_idempotent, toLowerCase_idempotent, IH2. reflexivity.
      * cbn [Str.toLowerCase Str.map]. rewrite toLower_toUpper. f_equal.
        fold (Str.toLowerCase (Str.toLowerCase w +:+ titled t)).
        rewrite toLowerCase_app, toLowerCase_idempotent, IH3, <- toLowerCase_app, Hs.
        reflexivity.
    + fold (titled s). destruct (IH s ltac:(lia)) as (IH1 & IH2 & IH3).
      refine (conj _ (conj _ _)).
      * cbn [String.length]. f_equal. exact IH1.
      * rewrite replaceAll_cons, Hw. fold (titled (titled s)). f_equal. exact IH2.
      * cbn [Str.toLowerCase Str.map]. f_equal. exact IH3.
Qed.

End TitleCaseMore.

(** X9: Title-casing keeps the length of a string, and title-casing twice is
    title-casing once: a title-cased header is left as it is. *)
Theorem toTitleCase_idempotent s :
  String.length (toTitleCase (Some s)) = String.length s
  /\ toTitleCase (Some (toTitleCase (Some s))) = toTitleCase (Some s).
Proof.
  rewrite !toTitleCase_titled.
  destruct (titled_facts (String.length s) s (Nat.le_refl _)) as (H1 & H2 & _).
  split; assumption.
Qed.


(** ** The selection of the columns ([App], [ColumnSelector]) *)

Section Selection.
Import App.

Lemma filter_other_elem (header x : string) (l : list string) :
  x ∈ List.filter (fun h => negb (Str.eqb h header)) l <-> x ∈ l /\ x <> header.
Proof.
  rewrite !list_elem_of_In, filter_In.
  unfold Str.eqb. rewrite negb_true_iff, bool_decide_eq_false. reflexivity.
Qed.

Lemma filter_other_absent (header : string) (l : list string) :
  header ∉ l -> List.filter (fun h => negb (Str.eqb h header)) l = l.
Proof.
  induction l as [|x l IH]; intros Hn; [reflexivity|].
  cbn [List.filter]. unfold Str.eqb at 1.
  rewrite bool_decide_eq_false_2 by (intros ->; apply Hn; left).
  cbn [negb]. f_equal. apply IH. intros H. apply Hn. right. exact H.
Qed.

Lemma filter_other_app (header : string) (l : list string) :
  List.filter (fun h => negb (Str.eqb h header)) (l ++ [header])%list
  = List.filter (fun h => negb (Str.eqb h header)) l.
Proof.
  rewrite List.filter_app. cbn [List.filter]. unfold Str.eqb at 2.
  rewrite bool_decide_eq_true_2 by reflexivity. cbn [negb]. apply List.app_nil_r.
Qed.

Lemma filter_elem (p : string -> bool) (l : list string) x :
  x ∈ List.filter p l <-> x ∈ l /\ p x = true.
Proof. rewrite !list_elem_of_In. apply filter_In. Qed.

Lemma filter_NoDup (p : string -> bool) (l : list string) :
  NoDup l -> NoDup (List.filter p l).
Proof.
  induction 1 as [|x l Hx _ IH]; [constructor|].
  cbn [List.filter]. destruct (p x); [|exact IH].
  constructor; [|exact IH]. rewrite filter_elem. intros [H _]. contradiction.
Qed.

Lemma change_elem header prev x :
  x ∈ handleHeaderSelectionChange header prev
  <-> (x = header /\ header ∉ prev) \/ (x <> header /\ x ∈ prev).
Proof.
  unfold handleHeaderSelectionChange, includes.
  destruct (bool_decide_reflect (header ∈ prev)) as [Hin|Hout].
  - rewrite filter_other_elem. split.
    + intros [H1 H2]. right. split; assumption.
    + intros [[-> H]|[H1 H2]]; [contradiction|split; assumption].
  - rewrite elem_of_app, list_elem_of_singleton. split.
    + intros [H| ->]; [right; split; [intros ->; contradiction|exact H]|left; split; [reflexivity|exact Hout]].
    + intros [[-> _]|[_ H]]; [right; reflexivity|left; exact H].
Qed.

Lemma change_NoDup header prev :
  NoDup prev -> NoDup (handleHeaderSelectionChange header prev).
Proof.
  intros Hnd. unfold handleHeaderSelectionChange, includes.
  destruct (bool_decide_reflect (header ∈ prev)) as [Hin|Hout].
  - apply filter_NoDup. exact Hnd.
  - apply NoDup_app. split; [exact Hnd|]. split; [|apply NoDup_singleton].
    intros x Hx Hx'. apply list_elem_of_singleton in Hx'. subst x. contradiction.
Qed.

Lemma defaultSelection_elem headers x :
  x ∈ defaultSelection headers <-> x ∈ DEFAULT_SELECTED_HEADERS /\ x ∈ headers.
Proof.
  unfold defaultSelection, includes.
  rewrite filter_elem, bool_decide_eq_true. reflexivity.
Qed.

Lemma initialSelection_default headers : initialSelection headers = defaultSelection headers.
Proof.
  unfold initialSelection. cbv zeta.
  destruct (defaultSelection headers); reflexivity.
Qed.

Lemma default_NoDup : NoDup DEFAULT_SELECTED_HEADERS.
Proof. apply (bool_decide_unpack _). vm_compute. exact I. Qed.

Lemma step_invariant allHeaders selected a :
  NoDup allHeaders -> offered allHeaders a ->
  NoDup selected /\ selected ⊆ allHeaders ->
  NoDup (step allHeaders selected a) /\ step allHeaders selected a ⊆ allHeaders.
Proof.
  intros Hall Ha [Hnd Hsub]. destruct a as [header| |]; cbn [step offered] in *.
  - split; [apply change_NoDup; exact Hnd|].
    intros x Hx. apply change_elem in Hx as [[-> _]|[_ Hx]]; [exact Ha|exact (Hsub x Hx)].
  - split; [exact Hall|intros x Hx; exact Hx].
  - split; [apply NoDup_nil_2|intros x Hx; inversion Hx].
Qed.

End Selection.

(** X15: Pressing the chip of a header flips that header and no other: after
    the change the header is selected exactly when it was not before, every
    other header is selected exactly when it was before, the other headers
    keep their order, and a selection without repetition stays without
    repetition. *)
Theorem selection_change_flips header prev :
  (header ∈ App.handleHeaderSelectionChange header prev <-> header ∉ prev)
  /\ (forall x, x <> header ->
        (x ∈ App.handleHeaderSelectionChange header prev <-> x ∈ prev))
  /\ List.filter (fun h => negb (Str.eqb h header)) (App.handleHeaderSelectionChange header prev)
     = List.filter (fun h => negb (Str.eqb h header)) prev
  /\ (NoDup prev -> NoDup (App.handleHeaderSelectionChange header prev)).
Proof.
  refine (conj _ (conj _ (conj _ _))).
  - rewrite change_elem. split.
    + intros [[_ H]|[H _]]; [exact H|contradiction].
    + intros H. left. split; [reflexivity|exact H].
  - intros x Hx. rewrite change_elem. split.
    + intros [[H _]|[_ H]]; [contradiction|exact H].
    + intros H. right. split; assumption.
  - unfold App.handleHeaderSelectionChange, App.includes.
    destruct (bool_decide_reflect (header ∈ prev)) as [Hin|Hout].
    + apply filter_other_absent. rewrite filter_other_elem. intros [_ H]. apply H. reflexivity.
    + apply filter_other_app.
  - apply change_NoDup.
Qed.

(** X16: Selecting a header that is not selected and pressing its chip again
    gives the selection back as it was. *)
Theorem selection_change_twice header prev :
  header ∉ prev ->
  App.handleHeaderSelectionChange header (App.handleHeaderSelectionChange header prev) = prev.
Proof.
  intros Hout. unfold App.handleHeaderSelectionChange at 2. unfold App.includes.
  rewrite bool_decide_eq_false_2 by exact Hout.
  unfold App.handleHeaderSelectionChange, App.includes.
  rewrite bool_decide_eq_true_2 by (apply elem_of_app; right; apply list_elem_of_singleton; reflexivity).
  rewrite filter_other_app. apply filter_other_absent. exact Hout.
Qed.

Lemma selection_change_twice_witness :
  App.handleHeaderSelectionChange "Loan Balance"
    (App.handleHeaderSelectionChange "Loan Balance" ["Borrower Name"; "Interest Rate"])
  = ["Borrower Name"; "Interest Rate"].
Proof.
  apply (selection_change_twice "Loan Balance" ["Borrower Name"; "Interest Rate"]).
  apply (bool_decide_unpack _). vm_compute. exact I.
Defined.

(** X17: The selection made when a file is read holds the default headers that
    the file has, in the order of the defaults and each once; it is empty
    when the file has none of them. *)
Theorem initial_selection_defaults headers :
  (forall x, x ∈ App.initialSelection headers
             <-> x ∈ App.DEFAULT_SELECTED_HEADERS /\ x ∈ headers)
  /\ App.initialSelection headers `sublist_of` App.DEFAULT_SELECTED_HEADERS
  /\ NoDup (App.initialSelection headers).
Proof.
  rewrite initialSelection_default. refine (conj _ (conj _ _)).
  - intros x. apply defaultSelection_elem.
  - unfold App.defaultSelection. generalize App.DEFAULT_SELECTED_HEADERS.
    intros l. induction l as [|y l IH]; [constructor|].
    cbn [List.filter]. destruct (App.includes y headers).
    + apply sublist_skip. exact IH.
    + apply sublist_cons. exact IH.
  - apply filter_NoDup. exact default_NoDup.
Qed.

(** X18: Whatever the user does in the column selector of a file whose headers
    are all different, the selected headers are headers of the file and no
    header is selected twice. *)
Theorem selection_invariant allHeaders actions :
  NoDup allHeaders -> Forall (App.offered allHeaders) actions ->
  NoDup (App.selectionAfter allHeaders actions)
  /\ App.selectionAfter allHeaders actions ⊆ allHeaders.
Proof.
  intros Hall Hact. unfold App.selectionAfter.
  assert (NoDup (App.initialSelection allHeaders)
          /\ App.initialSelection allHeaders ⊆ allHeaders) as Hinit.
  { rewrite initialSelection_default. split.
    - apply filter_NoDup. exact default_NoDup.
    - intros x Hx. apply defaultSelection_elem in Hx as [_ Hx]. exact Hx. }
  revert Hinit. generalize (App.initialSelection allHeaders) as selected.
  induction Hact as [|a actions Ha _ IH]; intros selected Hsel; [exact Hsel|].
  cbn [fold_left]. apply IH. apply step_invariant; assumption.
Qed.

Lemma selection_invariant_witness :
  let allHeaders := ["Loan Account"; "Notes"; "Loan Balance"] in
  let actions := [App.SelectionChange "Notes"; App.SelectionChange "Loan Account";
                  App.SelectAll; App.SelectionChange "Loan Balance"] in
  App.selectionAfter allHeaders actions = ["Loan Account"; "Notes"]
  /\ NoDup (App.selectionAfter allHeaders actions)
  /\ App.selectionAfter allHeaders actions ⊆ allHeaders.
Proof.
  split; [vm_compute; reflexivity|].
  apply (selection_invariant ["Loan Account"; "Notes"; "Loan Balance"]).
  - apply (bool_decide_unpack _). vm_compute. exact I.
  - repeat constructor; cbn [App.offered];
      apply (bool_decide_unpack _); vm_compute; exact I.
Defined.

(** ** Further properties of the parsers *)

Section ParsersMore.
Import ParseSpec.

Lemma whiteSpace_not_numeric c :
  Char.isWhiteSpace c = true -> Char.isNumericChar c = false.
Proof. destruct c as [[] [] [] [] [] [] [] []]; vm_compute; congruence. Qed.

Lemma whiteSpace_not_percent c :
  Char.isWhiteSpace c = true -> Char.isPercent c = false.
Proof. destruct c as [[] [] [] [] [] [] [] []]; vm_compute; congruence. Qed.

Lemma residue_blank s : whitespaceOnly s = true -> residue s = "".
Proof.
  unfold whitespaceOnly, residue. induction s as [|c s IH]; [reflexivity|].
  cbn [Str.forallb Str.filter]. intros H. apply andb_true_iff in H as [Hc Hs].
  rewrite (whiteSpace_not_numeric _ Hc). exact (IH Hs).
Qed.

(** The result for a string depends on the digits, points and minus
    signs of the string and on the presence of the parentheses only. *)
Lemma parseCurrency_residue s :
  parseCurrency (VString s)
  = let r := residue s in
    if bool_decide (r = "" \/ r = "." \/ r = "-") then None
    else
      let num := Js.Number r in
      if Num.isNaN num then None
      else Some (if hasParentheses s && Num.gtZero num then Num.neg num else num).
Proof.
  rewrite parseCurrency_spec. unfold parseCurrencySpec.
  destruct (whitespaceOnly s) eqn:E; [|reflexivity].
  cbv zeta. rewrite (residue_blank _ E).
  rewrite bool_decide_eq_true_2 by (left; reflexivity). reflexivity.
Qed.

Lemma filter_filter (p keep : ascii -> bool) s :
  (forall c, keep c = false -> p c = false) ->
  Str.filter p (Str.filter keep s) = Str.filter p s.
Proof.
  intros H. induction s as [|c s IH]; [reflexivity|].
  cbn [Str.filter]. destruct (keep c) eqn:E.
  - cbn [Str.filter]. rewrite IH. reflexivity.
  - rewrite (H _ E). exact IH.
Qed.

Lemma existsb_filter (p keep : ascii -> bool) s :
  (forall c, keep c = false -> p c = false) ->
  Str.existsb p (Str.filter keep s) = Str.existsb p s.
Proof.
  intros H. induction s as [|c s IH]; [reflexivity|].
  cbn [Str.filter Str.existsb]. destruct (keep c) eqn:E.
  - cbn [Str.existsb]. rewrite IH. reflexivity.
  - rewrite (H _ E). exact IH.
Qed.

Lemma withoutPercent_blank s : whitespaceOnly s = true -> withoutPercent s = s.
Proof.
  unfold whitespaceOnly, withoutPercent. induction s as [|c s IH]; [reflexivity|].
  cbn [Str.forallb Str.filter]. intros H. apply andb_true_iff in H as [Hc Hs].
  rewrite (whiteSpace_not_percent _ Hc). cbn [negb]. f_equal. exact (IH Hs).
Qed.

Lemma gtZero_neg num : Num.gtZero num = true -> Num.gtZero (Num.neg num) = false.
Proof. destruct num as [[]|[]| |[] m e]; cbn; congruence. Qed.

Lemma isNaN_neg num : Num.isNaN (Num.neg num) = Num.isNaN num.
Proof. destruct num; reflexivity. Qed.

End ParsersMore.

(** X11: A text is never read as [NaN], and a text with both parentheses is
    never read as a number above zero. *)
Theorem parseCurrency_parentheses s x :
  parseCurrency (VString s) = Some x ->
  Num.isNaN x = false
  /\ (Str.includes "(" s && Str.includes ")" s = true -> Num.gtZero x = false).
Proof.
  unfold parseCurrency.
  destruct (Str.eqb (Str.trim s) ""); [discriminate|]. cbv zeta.
  destruct (_ || _ || _); [discriminate|].
  set (num := Js.Number _).
  destruct (Num.isNaN num) eqn:Hnan; [discriminate|].
  destruct (Str.includes "(" s && Str.includes ")" s) eqn:Hneg; cbn [andb].
  - destruct (Num.gtZero num) eqn:Hpos; intros [= <-].
    + split; [rewrite isNaN_neg; exact Hnan|]. intros _. apply gtZero_neg. exact Hpos.
    + split; [exact Hnan|]. intros _. exact Hpos.
  - intros [= <-]. split; [exact Hnan|]. discriminate.
Qed.

Lemma parseCurrency_parentheses_witness :
  parseCurrency (VString "(1,234.56)") = Some (Js.Number "-1234.56")
  /\ Num.isNaN (Js.Number "-1234.56") = false
  /\ Num.gtZero (Js.Number "-1234.56") = false.
Proof.
  pose proof (parseCurrency_parentheses "(1,234.56)" (Js.Number "-1234.56") eq_refl) as [H1 H2].
  split; [reflexivity|]. split; [exact H1|exact (H2 eq_refl)].
Defined.

(** X12: Only the digits, the points, the minus signs and the two parentheses
    of a text count: taking any other characters out of it (a currency
    sign, the commas, letters, spaces) does not change what it is read as. *)
Theorem parseCurrency_ignores_decoration (keep : ascii -> bool) s :
  (forall c, keep c = false ->
     Char.isNumericChar c = false /\ c <> "("%char /\ c <> ")"%char) ->
  parseCurrency (VString (Str.filter keep s)) = parseCurrency (VString s).
Proof.
  intros Hkeep. rewrite !parseCurrency_residue.
  unfold ParseSpec.residue, ParseSpec.hasParentheses.
  rewrite filter_filter by (intros c Hc; exact (proj1 (Hkeep c Hc))).
  rewrite !existsb_filter; [reflexivity| |].
  - intros c Hc. apply bool_decide_eq_false. exact (proj2 (proj2 (Hkeep c Hc))).
  - intros c Hc. apply bool_decide_eq_false. exact (proj1 (proj2 (Hkeep c Hc))).
Qed.

Lemma parseCurrency_ignores_decoration_witness :
  let keep c :=
    Char.isNumericChar c || bool_decide (c = "("%char) || bool_decide (c = ")"%char) in
  Str.filter keep "USD $ 1,234.56" = "1234.56"
  /\ parseCurrency (VString (Str.filter keep "USD $ 1,234.56"))
     = parseCurrency (VString "USD $ 1,234.56").
Proof.
  intros keep. split; [vm_compute; reflexivity|].
  apply (parseCurrency_ignores_decoration keep "USD $ 1,234.56").
  intros c Hc. unfold keep in Hc.
  apply orb_false_iff in Hc as [Hc H2]. apply orb_false_iff in Hc as [H0 H1].
  apply bool_decide_eq_false in H1, H2. split; [exact H0|]. split; assumption.
Defined.

(** X13: The percent signs of a text do not count, wherever they stand: the
    text without them is read as the same number, or is Unparseable too. *)
Theorem parsePercent_ignores_percent_signs s :
  parsePercent (VString (Str.filter (fun c => negb (Char.isPercent c)) s))
  = parsePercent (VString s).
Proof.
  rewrite !parsePercent_spec. unfold ParseSpec.parsePercentSpec.
  fold (ParseSpec.withoutPercent s).
  assert (ParseSpec.withoutPercent (ParseSpec.withoutPercent s) = ParseSpec.withoutPercent s)
    as Hidem.
  { unfold ParseSpec.withoutPercent. apply filter_filter.
    intros c Hc. exact Hc. }
  rewrite Hidem.
  destruct (ParseSpec.whitespaceOnly s) eqn:Es.
  - rewrite (withoutPercent_blank _ Es), Es. reflexivity.
  - destruct (ParseSpec.whitespaceOnly (ParseSpec.withoutPercent s)) eqn:Ew; [|reflexivity].
    assert (Str.trim (ParseSpec.withoutPercent s) = "") as ->.
    { rewrite <- trim_blank in Ew. unfold Str.eqb in Ew.
      apply bool_decide_eq_true in Ew. exact Ew. }
    reflexivity.
Qed.

(** ** Preview and PDF: further properties of the table *)

Section TableMore.
Import TableSpec.

Lemma formatUSD_head x :
  exists r, Js.formatUSD x = String "$" r \/ Js.formatUSD x = String "-" r.
Proof.
  assert (forall sg c, exists r, Js.formatCents sg c = String "$" r
                                 \/ Js.formatCents sg c = String "-" r) as H.
  { intros sg c. unfold Js.formatCents. destruct sg; eexists; [right|left]; reflexivity. }
  destruct x as [s|s| |s m e]; cbn [Js.formatUSD]; try apply H.
  - destruct s; eexists; [right|left]; reflexivity.
  - eexists; left; reflexivity.
Qed.

Lemma total_not_label x t :
  formatCurrency (VNumber x) <> "Totals" /\ formatCurrency (VNumber x) <> yieldText t.
Proof.
  change (formatCurrency (VNumber x)) with (Js.formatUSD x).
  destruct (formatUSD_head x) as [r [-> | ->]]; split; discriminate.
Qed.

Lemma choices_differ headers t i :
  isLabelPosition headers i && isTotalPosition headers i = true ->
  previewChoice headers t i <> pdfChoice headers t i.
Proof.
  unfold isLabelPosition, isTotalPosition, previewChoice, pdfChoice.
  intros H. apply andb_true_iff in H as [Hl Ht].
  pose proof (fun x => proj1 (total_not_label x t)) as H1.
  pose proof (fun x => proj2 (total_not_label x t)) as H2.
  destruct (bool_decide (i = 0%nat)), (bool_decide (i = 1%nat) && hasInterestRate headers),
           (bool_decide (Z.of_nat i = loanBalanceIndex headers)),
           (bool_decide (Z.of_nat i = regularPaymentIndex headers));
    cbn [orb] in Hl, Ht; try discriminate;
    intros Heq; first [exact (H1 _ (eq_sym Heq)) | exact (H2 _ (eq_sym Heq))].
Qed.

Lemma findIndexFrom_find {A} (p : A -> bool) l k j :
  0 <= k -> findIndexFrom p l k = k + Z.of_nat j -> List.find p l = l !! j.
Proof.
  revert k j. induction l as [|x l IH]; intros k j Hk; cbn [findIndexFrom List.find]; [lia|].
  destruct (p x).
  - intros H. assert (j = 0%nat) as -> by lia. reflexivity.
  - intros H. pose proof (findIndexFrom_range p l (k + 1)) as Hr.
    destruct j as [|j]; [lia|]. cbn [lookup list_lookup].
    apply (IH (k + 1) j); lia.
Qed.

Lemma findIndex_find {A} (p : A -> bool) l i :
  findIndex p l = Z.of_nat i -> List.find p l = l !! i.
Proof. intros H. apply (findIndexFrom_find p l 0 i); [lia|exact H]. Qed.

Lemma lower_nonempty h r : Str.toLowerCase h = r -> r <> "" -> truthyString (Some h) = Some h.
Proof. intros <- Hr. destruct h; [contradiction|reflexivity]. Qed.

Lemma pdf_footer_length headers t :
  length (PdfGenerator.footerRow headers t) = length headers.
Proof.
  unfold PdfGenerator.footerRow. cbv zeta.
  repeat match goal with
         | |- context [if ?b then _ else _] => destruct b
         end;
    rewrite ?length_insert; apply length_replicate.
Qed.

Lemma currency_right_aligned h : isCurrency h = true -> isRightAligned h = true.
Proof.
  unfold isCurrency, isRightAligned, Str.eqb. cbv zeta. intros H.
  apply orb_true_iff in H as [H|H]; apply bool_decide_eq_true in H; rewrite H;
    vm_compute; reflexivity.
Qed.

End TableMore.

(** X3: The footers of the preview and of the PDF show the same text in a
    column exactly when the column is not both a label position (the first
    column, or the second one with the Interest Rate role selected) and the
    column of a currency total: there the preview keeps the label and the
    PDF the total, and the two texts are never the same. *)
Theorem footers_agree_iff headers data i h :
  headers !! i = Some h ->
  (TableSpec.previewFooterText headers data i = TableSpec.pdfFooterText headers data i
   <-> TableSpec.isLabelPosition headers i && TableSpec.isTotalPosition headers i = false).
Proof.
  intros Hh. rewrite (preview_footer_text _ _ _ _ Hh), (pdf_footer_text _ _ _ _ Hh).
  split.
  - intros [= H].
    destruct (TableSpec.isLabelPosition headers i && TableSpec.isTotalPosition headers i) eqn:E;
      [|reflexivity].
    destruct (choices_differ _ _ _ E H).
  - intros H. f_equal. apply choices_agree. exact H.
Qed.

Lemma footers_agree_iff_witness :
  let headers := ["Borrower Name"; "Interest Rate"; "Loan Balance"] in
  let data : list TableRow :=
    [ {[ "Borrower Name" := VString "Ann"; "Interest Rate" := VString "10%";
         "Loan Balance" := VString "1,000" ]} ] in
  TableSpec.previewFooterText headers data 2 = TableSpec.pdfFooterText headers data 2.
Proof.
  intros headers data.
  apply (proj2 (footers_agree_iff headers data 2 "Loan Balance" eq_refl)).
  vm_compute. reflexivity.
Defined.

(** X4: The total a footer shows under a column is the sum over that very
    column: the column whose footer cell holds the Regular Payment (Loan
    Balance) total is the one whose header the total is summed under. *)
Theorem footer_total_column headers data i h :
  headers !! i = Some h ->
  (Z.of_nat i = TableSpec.regularPaymentIndex headers ->
     regularPaymentTotal (computeTotals headers data)
     = fold_left (fun acc row => Num.add acc (orZero (parseCurrency (cell row h)))) data Num.zero)
  /\ (Z.of_nat i = TableSpec.loanBalanceIndex headers ->
     loanBalanceTotal (computeTotals headers data)
     = fold_left (fun acc row => Num.add acc (orZero (parseCurrency (cell row h)))) data Num.zero).
Proof.
  intros Hh. split; intros Hi.
  - pose proof (regularPaymentIndex_header _ _ _ Hi Hh) as Hl.
    unfold TableSpec.regularPaymentIndex in Hi. symmetry in Hi.
    apply findIndex_find in Hi. rewrite Hh in Hi.
    unfold computeTotals. cbv zeta. cbn [regularPaymentTotal].
    rewrite Hi, (lower_nonempty _ _ Hl) by discriminate. reflexivity.
  - pose proof (loanBalanceIndex_header _ _ _ Hi Hh) as Hl.
    unfold TableSpec.loanBalanceIndex in Hi. symmetry in Hi.
    apply findIndex_find in Hi. rewrite Hh in Hi.
    unfold computeTotals. cbv zeta. cbn [loanBalanceTotal].
    rewrite Hi, (lower_nonempty _ _ Hl) by discriminate. reflexivity.
Qed.

Lemma footer_total_column_witness :
  let headers := ["Borrower Name"; "LOAN BALANCE"; "loan balance"] in
  let data : list TableRow :=
    [ {[ "LOAN BALANCE" := VString "1,000"; "loan balance" := VString "5" ]};
      {[ "LOAN BALANCE" := VString "(250)"; "loan balance" := VString "5" ]} ] in
  TableSpec.loanBalanceIndex headers = 1
  /\ loanBalanceTotal (computeTotals headers data)
     = fold_left (fun acc row => Num.add acc (orZero (parseCurrency (cell row "LOAN BALANCE"))))
         data Num.zero.
Proof.
  intros headers data. split; [reflexivity|].
  exact (proj2 (footer_total_column headers data 1 "LOAN BALANCE" eq_refl) eq_refl).
Defined.

(** X5: Without rows every total is zero for any selection, the yield too
    (there is no division by the row count 0), and the footer shows
    "$0.00" and a yield of 0.0000% over 0 loans. *)
Theorem totals_without_rows headers :
  computeTotals headers []
  = {| regularPaymentTotal := Num.zero; loanBalanceTotal := Num.zero;
       portfolioYield := Num.zero; loanCount := 0 |}
  /\ yieldText (computeTotals headers []) = "Portfolio Yield: 0.0000% (0 loans)"
  /\ formatCurrency (VNumber (regularPaymentTotal (computeTotals headers []))) = "$0.00"
  /\ formatCurrency (VNumber (loanBalanceTotal (computeTotals headers []))) = "$0.00".
Proof.
  assert (computeTotals headers []
          = {| regularPaymentTotal := Num.zero; loanBalanceTotal := Num.zero;
               portfolioYield := Num.zero; loanCount := 0 |}) as H.
  { unfold computeTotals. cbv zeta. cbn [fold_left length Nat.ltb Nat.leb].
    destruct (truthyString (List.find (matchesHeader "Regular Payment") headers)),
             (truthyString (List.find (matchesHeader "Loan Balance") headers)),
             (truthyString (List.find (matchesHeader "Interest Rate") headers)); reflexivity. }
  rewrite H. split; [reflexivity|]. vm_compute. repeat split.
Qed.

(** X6: In the preview a column has one alignment: the header cell and every
    body cell of a column are aligned alike, to the right for the six
    right-aligned roles and to the left otherwise; the two columns shown as
    currency are among those aligned to the right. *)
Theorem preview_column_alignment headers data j h :
  headers !! j = Some h ->
  let v := ReportPreview.render headers data in
  (ReportPreview.align <$> headRow v !! j) = Some (Some (ReportPreview.alignOf h))
  /\ (forall i r, ReportPreview.bodyRows v !! i = Some r ->
        (ReportPreview.align <$> r !! j) = Some (Some (ReportPreview.alignOf h)))
  /\ (isCurrency h = true -> ReportPreview.alignOf h = AlignRight).
Proof.
  intros Hh v. unfold v.
  assert (headers <> []) as Hne by (intros ->; discriminate).
  rewrite (render_nonempty _ _ Hne). cbn [headRow ReportPreview.bodyRows].
  refine (conj _ (conj _ _)).
  - rewrite map_fmap, list_lookup_fmap, Hh. reflexivity.
  - intros i r Hr. rewrite map_fmap, list_lookup_fmap in Hr.
    destruct (take 50 data !! i) as [row|]; [|discriminate].
    cbn [fmap option_fmap option_map] in Hr. injection Hr as <-.
    rewrite map_fmap, list_lookup_fmap, Hh. reflexivity.
  - intros Hc. unfold ReportPreview.alignOf. rewrite (currency_right_aligned _ Hc). reflexivity.
Qed.

Lemma preview_column_alignment_witness :
  let headers := ["Borrower Name"; "Loan Balance"] in
  let data : list TableRow :=
    [ {[ "Borrower Name" := VString "Ann"; "Loan Balance" := VString "1,000" ]} ] in
  (ReportPreview.align <$> headRow (ReportPreview.render headers data) !! 1%nat)
  = Some (Some AlignRight).
Proof.
  intros headers data.
  exact (proj1 (preview_column_alignment headers data 1 "Loan Balance" eq_refl)).
Defined.

(** X7: Preview and PDF are rectangular and have the same header line: with a
    header selected, the header line, every body row and the footer of the
    preview have one cell for each selected header, as have the header line
    and the footer of the PDF, and the header line of the PDF holds the
    texts of the preview's, the title-cased headers. *)
Theorem tables_rectangular headers data :
  headers <> [] ->
  let v := ReportPreview.render headers data in
  let t := PdfGenerator.table headers data in
  length (headRow v) = length headers
  /\ Forall (fun r => length r = length headers) (ReportPreview.bodyRows v)
  /\ length (ReportPreview.footRow v) = length headers
  /\ length (PdfGenerator.head t) = length headers
  /\ length (PdfGenerator.foot t) = length headers
  /\ PdfGenerator.head t = List.map ReportPreview.text (headRow v).
Proof.
  intros Hne v t. unfold v, t. rewrite (render_nonempty _ _ Hne).
  cbn [headRow ReportPreview.bodyRows ReportPreview.footRow PdfGenerator.head
       PdfGenerator.foot PdfGenerator.table].
  refine (conj _ (conj _ (conj _ (conj _ (conj _ _))))).
  - apply length_map.
  - apply Forall_forall. intros r Hr. rewrite map_fmap in Hr.
    apply list_elem_of_fmap in Hr as (row & -> & _). apply length_map.
  - apply length_imap.
  - apply length_map.
  - apply pdf_footer_length.
  - rewrite List.map_map. reflexivity.
Qed.

Lemma tables_rectangular_witness :
  let headers := ["loan balance"; "Borrower Name"] in
  let data : list TableRow :=
    [ {[ "Borrower Name" := VString "Ann"; "loan balance" := VString "1,000" ]} ] in
  length (PdfGenerator.foot (PdfGenerator.table headers data)) = 2%nat
  /\ PdfGenerator.head (PdfGenerator.table headers data)
     = List.map ReportPreview.text (headRow (ReportPreview.render headers data)).
Proof.
  intros headers data.
  pose proof (tables_rectangular headers data ltac:(discriminate)) as H.
  split; [exact (proj1 (proj2 (proj2 (proj2 (proj2 H)))))
         |exact (proj2 (proj2 (proj2 (proj2 (proj2 H)))))].
Defined.

(** ** The names of the downloads *)

Section DownloadNames.
Import App.

Lemma takeWhile_none s : Str.takeWhile (fun _ => false) s = "".
Proof. destruct s; reflexivity. Qed.

Lemma dropWhile_none s : Str.dropWhile (fun _ => false) s = s.
Proof. destruct s; reflexivity. Qed.

Lemma underscored_map title :
  underscored title
  = Str.map (fun c => if Char.isWhiteSpace c then "_"%char else c) title.
Proof.
  unfold underscored. induction title as [|c s IH]; [reflexivity|].
  rewrite replaceAll_cons, ?takeWhile_none, dropWhile_none, IH.
  cbn [Str.map]. destruct (Char.isWhiteSpace c); reflexivity.
Qed.

Lemma underscored_length title : String.length (underscored title) = String.length title.
Proof.
  rewrite underscored_map. induction title as [|c s IH]; [reflexivity|].
  cbn [Str.map String.length]. f_equal. exact IH.
Qed.

Lemma underscored_no_space title :
  Str.existsb Char.isWhiteSpace (underscored title) = false.
Proof.
  rewrite underscored_map. induction title as [|c s IH]; [reflexivity|].
  cbn [Str.map Str.existsb]. rewrite IH.
  destruct (Char.isWhiteSpace c) eqn:E; [reflexivity|]. rewrite E. reflexivity.
Qed.

Lemma existsb_string_app p s t :
  Str.existsb p (s +:+ t) = Str.existsb p s || Str.existsb p t.
Proof.
  induction s as [|c s IH]; [reflexivity|].
  rewrite app_cons. cbn [Str.existsb]. rewrite IH. apply orb_assoc.
Qed.

Lemma orInforme_no_space s :
  Str.existsb Char.isWhiteSpace s = false ->
  Str.existsb Char.isWhiteSpace (orInforme s) = false.
Proof. destruct s; [reflexivity|]. intros H. exact H. Qed.

Lemma orInforme_length s : (0 < String.length (orInforme s))%nat.
Proof. destruct s; cbn; lia. Qed.

End DownloadNames.

(** X19: The names of the downloads hold no white space and never lack a stem:
    every white space character of the title becomes an underscore and
    every other character stays, an empty title gives the stem "Informe",
    and a PDF is saved (under such a name, holding the table of the
    selection) only when a header is selected and there is a row. *)
Theorem download_names reportTitle :
  App.underscored reportTitle
  = Str.map (fun c => if Char.isWhiteSpace c then "_"%char else c) reportTitle
  /\ (forall headers data name t,
        App.handleGeneratePdf reportTitle headers data = Some (name, t) ->
        headers <> [] /\ data <> []
        /\ t = PdfGenerator.table headers data
        /\ Str.existsb Char.isWhiteSpace name = false
        /\ (String.length "_informe.pdf" < String.length name)%nat)
  /\ Str.existsb Char.isWhiteSpace (App.imageFileName reportTitle) = false
  /\ (String.length ".png" < String.length (App.imageFileName reportTitle))%nat.
Proof.
  refine (conj (underscored_map _) (conj _ (conj _ _))).
  - intros headers data name t. unfold App.handleGeneratePdf.
    destruct headers as [|h headers]; [discriminate|].
    destruct data as [|row data]; [discriminate|].
    cbn [length Nat.eqb orb]. intros [= <- <-].
    split; [discriminate|]. split; [discriminate|]. split; [reflexivity|].
    unfold App.pdfFileName. split.
    + rewrite existsb_string_app, underscored_no_space. reflexivity.
    + rewrite string_length_app, underscored_length.
      pose proof (orInforme_length reportTitle). lia.
  - unfold App.imageFileName.
    rewrite existsb_string_app, (orInforme_no_space _ (underscored_no_space _)). reflexivity.
  - unfold App.imageFileName. rewrite string_length_app.
    pose proof (orInforme_length (App.underscored reportTitle)). cbn [String.length] in *. lia.
Qed.

(** ** Reading back a formatted amount *)



(** ** Cells without a value, and the styles of the table *)

Section CellsMore.
Import TableSpec.



End CellsMore.



(** X20: The later [generatePdf] never enlarges the print for a wider table:
    with more columns the font size and the cell padding stay or shrink,
    and the padding is always below the font size. *)
Theorem table_styles_shrink headers wider :
  (length headers <= length wider)%nat ->
  SFleb (fst (tableStyles wider)) (fst (tableStyles headers)) = true
  /\ SFleb (snd (tableStyles wider)) (snd (tableStyles headers)) = true
  /\ SFltb (snd (tableStyles headers)) (fst (tableStyles headers)) = true.
Proof.
  intros Hle. unfold tableStyles. cbv zeta.
  destruct (Nat.ltb_spec 12 (length headers)), (Nat.ltb_spec 12 (length wider)),
           (Nat.ltb_spec 8 (length headers)), (Nat.ltb_spec 8 (length wider));
    try lia; vm_compute; repeat split.
Qed.

Lemma table_styles_shrink_witness :
  let headers := ["Loan Account"; "Borrower Name"] in
  let wider := replicate 9 "Notes" in
  tableStyles headers = (Num.ofDecimal false 95 (-1), Num.ofDecimal false 25 (-1))
  /\ tableStyles wider = (Num.ofDecimal false 8 0, Num.ofDecimal false 2 0)
  /\ SFleb (fst (tableStyles wider)) (fst (tableStyles headers)) = true.
Proof.
  intros headers wider. split; [reflexivity|]. split; [reflexivity|].
  exact (proj1 (table_styles_shrink headers wider ltac:(vm_compute; lia))).
Defined.

(** ** Preview and PDF: the body and the alignment *)

(** X1: The body of the preview is the first 50 rows of the body of the PDF:
    up to the row cap a cell of the preview shows the text the PDF prints
    in that row and column, and from row 50 on the preview has no cell. *)
Theorem preview_body_is_pdf_prefix headers data i j :
  headers <> [] ->
  TableSpec.previewBodyText headers data i j
  = if (i <? 50)%nat then TableSpec.pdfBodyText headers data i j else None.
Proof.
  intros Hne. destruct (Nat.ltb_spec i 50) as [Hi|Hi].
  - apply body_texts_agree; assumption.
  - unfold TableSpec.previewBodyText.
    rewrite (lookup_ge_None_2 (ReportPreview.bodyRows _) i); [reflexivity|].
    rewrite (preview_body_length _ _ Hne). lia.
Qed.

Lemma preview_body_is_pdf_prefix_witness :
  let headers := ["Loan Balance"] in
  let data : list TableRow := replicate 60 {[ "Loan Balance" := VString "(1000)" ]} in
  TableSpec.previewBodyText headers data 49 0 = Some "-$1,000.00"
  /\ TableSpec.pdfBodyText headers data 50 0 = Some "-$1,000.00"
  /\ TableSpec.previewBodyText headers data 50 0 = None.
Proof.
  intros headers data.
  split; [vm_compute; reflexivity|]. split; [vm_compute; reflexivity|].
  exact (preview_body_is_pdf_prefix headers data 50 0 ltac:(discriminate)).
Defined.

(** X2: The PDF aligns a column to the right exactly when the preview does,
    has no column style for a column the preview aligns to the left, and
    none beyond the selected columns. *)
Theorem column_alignment_agrees headers j :
  (forall h, headers !! j = Some h ->
     (PdfGenerator.columnStylesOf headers !! j = Some AlignRight
      <-> ReportPreview.alignOf h = AlignRight)
     /\ (PdfGenerator.columnStylesOf headers !! j = None
         <-> ReportPreview.alignOf h = AlignLeft))
  /\ (headers !! j = None -> PdfGenerator.columnStylesOf headers !! j = None).
Proof.
  rewrite columnStyles_lookup. split.
  - intros h ->. unfold ReportPreview.alignOf.
    destruct (isRightAligned h); repeat split; (reflexivity || discriminate).
  - intros ->. reflexivity.
Qed.

(** ** Sums that are numbers *)

Section SumsAreNumbers.

Lemma shr_1_nonneg mrs : 0 <= shr_m mrs -> 0 <= shr_m (shr_1 mrs).
Proof. destruct mrs as [[|[p|p|]|p] r s]; cbn; lia. Qed.

Lemma iter_shr_1_nonneg p : forall mrs, 0 <= shr_m mrs -> 0 <= shr_m (SpecFloat.iter_pos shr_1 p mrs).
Proof.
  induction p as [p IH|p IH|]; intros mrs H; cbn [SpecFloat.iter_pos].
  - apply IH, IH, shr_1_nonneg, H.
  - apply IH, IH, H.
  - apply shr_1_nonneg, H.
Qed.

Lemma shr_fexp_nonneg m e l :
  0 <= m -> 0 <= shr_m (fst (shr_fexp Num.prec Num.emax m e l)).
Proof.
  intros H. unfold shr_fexp, shr.
  assert (0 <= shr_m (shr_record_of_loc m l)) as H0 by (destruct l as [|[]]; exact H).
  destruct (fexp _ _ _ - e) as [|p|p]; cbn [fst]; [exact H0| |exact H0].
  apply iter_shr_1_nonneg, H0.
Qed.

Lemma round_nearest_even_nonneg m l : 0 <= m -> 0 <= round_nearest_even m l.
Proof.
  intros H. destruct l as [|[]]; cbn [round_nearest_even]; [lia| |lia|lia].
  destruct (Z.even m); lia.
Qed.

Lemma binary_round_aux_number sx mx ex lx :
  0 <= mx -> Num.isNaN (binary_round_aux Num.prec Num.emax sx mx ex lx) = false.
Proof.
  intros H. unfold binary_round_aux.
  pose proof (shr_fexp_nonneg mx ex lx H) as H1.
  destruct (shr_fexp Num.prec Num.emax mx ex lx) as [mrs' e']. cbn [fst] in H1.
  pose proof (shr_fexp_nonneg _ e' loc_Exact
                (round_nearest_even_nonneg _ (loc_of_shr_record mrs') H1)) as H2.
  destruct (shr_fexp Num.prec Num.emax _ e' loc_Exact) as [mrs'' e'']. cbn [fst] in H2.
  destruct (shr_m mrs'') as [|m|m]; [reflexivity| |lia].
  destruct (e'' <=? _); reflexivity.
Qed.

Lemma binary_normalize_number m e : Num.isNaN (binary_normalize Num.prec Num.emax m e false) = false.
Proof.
  destruct m as [|m|m]; cbn [binary_normalize]; [reflexivity| |];
    unfold binary_round; destruct (shl_align _ _ _) as [mz ez];
    apply binary_round_aux_number; lia.
Qed.

(** A sum is [NaN] only when a term is, or when the terms are the two
    infinities. *)
Lemma add_number x y :
  Num.isNaN x = false -> Num.isFinite y = true -> Num.isNaN (Num.add x y) = false.
Proof.
  destruct x as [sx|sx| |sx mx ex], y as [sy|sy| |sy my ey]; try discriminate; intros _ _;
    try reflexivity.
  - destruct sx, sy; reflexivity.
  - apply binary_normalize_number.
Qed.

Lemma fold_add_number (l : list Num.number) : forall acc,
  Num.isNaN acc = false -> Forall (fun c => Num.isFinite c = true) l ->
  Num.isNaN (fold_left Num.add l acc) = false.
Proof.
  induction l as [|c l IH]; intros acc Hacc Hl; [exact Hacc|].
  inversion Hl as [|? ? Hc Hl']; subst. cbn [fold_left].
  apply IH; [apply add_number; assumption|exact Hl'].
Qed.

Lemma orZero_finite r :
  (forall x, r = Some x -> Num.isNaN x = true \/ Num.isFinite x = true) ->
  Num.isFinite (orZero r) = true.
Proof.
  destruct r as [[s|s| |s m e]|]; intros H; try reflexivity.
  destruct (H _ eq_refl); discriminate.
Qed.

Lemma column_sum_number (parse : JsValue -> option Num.number) h data :
  (forall row x, row ∈ data -> parse (cell row h) = Some x ->
                 Num.isNaN x = true \/ Num.isFinite x = true) ->
  Num.isNaN (fold_left (fun acc row => Num.add acc (orZero (parse (cell row h)))) data Num.zero)
  = false.
Proof.
  intros H. rewrite fold_left_contribution. apply fold_add_number; [reflexivity|].
  apply Forall_forall. intros c Hc. rewrite map_fmap in Hc.
  apply list_elem_of_fmap in Hc as (row & -> & Hrow).
  apply orZero_finite. intros x Hx. exact (H row x Hrow Hx).
Qed.

End SumsAreNumbers.

(** X21: a currency total is never [NaN] unless a cell is read as an infinity:
    when no cell under the selected headers is read as an infinite amount,
    the Regular Payment and the Loan Balance totals are numbers, and the
    footer never shows "$NaN" for them (a cell that is read as [NaN] counts
    as 0). *)
Theorem currency_totals_are_numbers headers data :
  (forall row h x, row ∈ data -> h ∈ headers -> parseCurrency (cell row h) = Some x ->
                   Num.isNaN x = true \/ Num.isFinite x = true) ->
  let t := computeTotals headers data in
  Num.isNaN (regularPaymentTotal t) = false
  /\ Num.isNaN (loanBalanceTotal t) = false
  /\ formatCurrency (VNumber (regularPaymentTotal t)) <> "$NaN"
  /\ formatCurrency (VNumber (loanBalanceTotal t)) <> "$NaN".
Proof.
  intros H t.
  assert (forall role, Num.isNaN (TableSpec.totalOf TableSpec.falsyAsZero role headers data) = false)
    as Hrole.
  { intros role. unfold TableSpec.totalOf.
    destruct (TableSpec.roleHeader role headers) as [h|] eqn:E; [|reflexivity].
    rewrite <- column_total. apply column_sum_number.
    intros row x Hrow Hx. apply (H row h x Hrow); [|exact Hx].
    apply roleHeader_Some in E as (before & after & -> & _).
    apply elem_of_app. right. left. }
  destruct (computeTotals_spec headers data) as (Hrp & Hlb & _). fold t in Hrp, Hlb.
  assert (forall x, Num.isNaN x = false -> formatCurrency (VNumber x) <> "$NaN") as Hfmt.
  { intros x Hx. change (formatCurrency (VNumber x)) with (Js.formatUSD x).
    assert (Num.isFinite x = true -> Js.formatUSD x <> "$NaN") as Hfin.
    { intros Hf Heq.
      destruct (formatUSD_shape x Hf) as (int & frac & Hs & Hg & Hl & _).
      rewrite Heq in Hs. destruct (Num.signBit x); [discriminate|].
      rewrite app_nil_l, app_cons in Hs. injection Hs as Hs.
      destruct int as [|c int]; [discriminate|].
      apply (f_equal String.length) in Hs.
      rewrite !string_length_app, Hl in Hs. cbn [String.length] in Hs. lia. }
    destruct x as [s|s| |s m e]; [apply Hfin; reflexivity| |discriminate|apply Hfin; reflexivity].
    destruct s; discriminate. }
  rewrite Hrp, Hlb.
  refine (conj (Hrole _) (conj (Hrole _) (conj _ _))); apply Hfmt, Hrole.
Qed.

Lemma currency_totals_are_numbers_witness :
  let headers := ["Borrower Name"; "Loan Balance"] in
  let data : list TableRow :=
    [ {[ "Borrower Name" := VString "Ann"; "Loan Balance" := VString "1,000" ]};
      {[ "Borrower Name" := VString "Bob"; "Loan Balance" := VNumber Num.NaN ]} ] in
  Num.isNaN (loanBalanceTotal (computeTotals headers data)) = false
  /\ formatCurrency (VNumber (loanBalanceTotal (computeTotals headers data))) = "$1,000.00".
Proof.
  intros headers data. split; [|vm_compute; reflexivity].
  refine (proj1 (proj2 (currency_totals_are_numbers headers data _))).
  intros row h x Hrow Hh Hx.
  apply list_elem_of_In in Hrow. apply list_elem_of_In in Hh.
  destruct Hrow as [<-|[<-|[]]]; destruct Hh as [<-|[<-|[]]];
    vm_compute in Hx; first [discriminate | injection Hx as <-; vm_compute; tauto].
Defined.

Section YieldIsNumber.

Lemma digits2_iter_xO p k :
  Z.pos (digits2_pos (Pos.iter xO p k)) = Z.pos (digits2_pos p) + Z.pos k.
Proof.
  induction k as [|k IH] using Pos.peano_ind.
  - cbn [Pos.iter digits2_pos]. lia.
  - rewrite Pos.iter_succ. cbn [digits2_pos]. lia.
Qed.

Lemma digits2_bound p : Z.pos p < 2 ^ 53 -> Z.pos (digits2_pos p) <= 53.
Proof.
  intros H. destruct (Z_le_gt_dec (Z.pos (digits2_pos p)) 53) as [Hle|Hgt]; [exact Hle|].
  exfalso.
  assert (forall q, 2 ^ (Z.pos (digits2_pos q) - 1) <= Z.pos q) as Hlow.
  { induction q as [q IH|q IH|]; cbn [digits2_pos]; [| |cbn; lia];
      rewrite Pos2Z.inj_succ;
      replace (Z.succ (Z.pos (digits2_pos q)) - 1) with (Z.succ (Z.pos (digits2_pos q) - 1))
        by lia;
      rewrite Z.pow_succ_r by lia; lia. }
  pose proof (Hlow p) as Hp.
  assert (2 ^ 53 <= 2 ^ (Z.pos (digits2_pos p) - 1)) by (apply Z.pow_le_mono_r; lia).
  lia.
Qed.

(** The number of a row count below [2^53] is finite and not zero. *)
Lemma ofNat_finite n :
  (0 < n)%nat -> Z.of_nat n < 2 ^ 53 -> exists m e, Num.ofNat n = S754_finite false m e.
Proof.
  intros Hn Hb. unfold Num.ofNat.
  destruct (Z.of_nat n) as [|p|p] eqn:E; [lia| |lia].
  cbn [binary_normalize]. unfold binary_round.
  pose proof (digits2_bound p Hb) as Hd.
  set (d := Z.pos (digits2_pos p)) in *.
  assert (fexp Num.prec Num.emax (d + 0) = d - 53) as Hfexp
    by (unfold fexp, emin, Num.prec, Num.emax; lia).
  rewrite Hfexp.
  assert (exists mz, shl_align p 0 (d - 53) = (mz, d - 53)
                     /\ Z.pos (digits2_pos mz) = 53) as (mz & -> & Hmz).
  { unfold shl_align. destruct (d - 53 - 0) as [|k|k] eqn:Ek; [| lia |].
    - exists p. split; [f_equal; lia|]. fold d. lia.
    - exists (Pos.iter xO p k). split; [reflexivity|].
      rewrite digits2_iter_xO. fold d. lia. }
  unfold binary_round_aux.
  assert (forall l, l = loc_Exact ->
            shr_fexp Num.prec Num.emax (Z.pos mz) (d - 53) l
            = ({| shr_m := Z.pos mz; shr_r := false; shr_s := false |}, d - 53)) as Hshr.
  { intros l ->. unfold shr_fexp. cbn [Zdigits2]. rewrite Hmz.
    replace (fexp Num.prec Num.emax (53 + (d - 53)) - (d - 53)) with 0
      by (unfold fexp, emin, Num.prec, Num.emax; lia).
    reflexivity. }
  rewrite (Hshr _ eq_refl). cbn [shr_m loc_of_shr_record round_nearest_even].
  rewrite (Hshr _ eq_refl). cbn [shr_m].
  destruct (Z.leb_spec (d - 53) (Num.emax - Num.prec)) as [_|H];
    [|unfold Num.emax, Num.prec in H; lia].
  exists mz, (d - 53). reflexivity.
Qed.

Lemma div_number x m e :
  Num.isNaN x = false -> Num.isNaN (Num.div x (S754_finite false m e)) = false.
Proof.
  destruct x as [sx|sx| |sx mx ex]; try discriminate; intros _; try reflexivity.
  unfold Num.div. cbn [SFdiv]. unfold SFdiv_core_binary.
  set (m' := match _ - _ - _ with Z.pos _ => _ | 0 => _ | Z.neg _ => _ end).
  assert (0 <= m') as Hm'.
  { unfold m'. destruct (_ - _ - _) as [|k|k]; [lia| |lia].
    apply Z.shiftl_nonneg. lia. }
  pose proof (Z.div_pos m' (Z.pos m) Hm' ltac:(lia)) as Hq.
  unfold Z.div in Hq. destruct (Z.div_eucl m' (Z.pos m)) as [q r].
  apply binary_round_aux_number. exact Hq.
Qed.

End YieldIsNumber.

(** X22: the portfolio yield is never [NaN] unless a rate is read as an
    infinity: when no cell under the selected headers is read by
    [parsePercent] as an infinite number (and there are fewer than 2^53
    rows), the yield is a number, with rows or without. *)
Theorem portfolio_yield_is_number headers data :
  Z.of_nat (length data) < 2 ^ 53 ->
  (forall row h x, row ∈ data -> h ∈ headers -> parsePercent (cell row h) = Some x ->
                   Num.isNaN x = true \/ Num.isFinite x = true) ->
  Num.isNaN (portfolioYield (computeTotals headers data)) = false.
Proof.
  intros Hlen H.
  destruct (computeTotals_spec headers data) as (_ & _ & _ & Hy).
  rewrite Hy. unfold TableSpec.yieldOf.
  destruct (TableSpec.roleHeader "Interest Rate" headers) as [h|] eqn:E; [|reflexivity].
  destruct data as [|row0 data0] eqn:Ed; [reflexivity|]. rewrite <- Ed in *.
  destruct (ofNat_finite (length data)) as (m & e & ->); [subst data; cbn; lia|exact Hlen|].
  apply div_number. rewrite <- column_total. apply column_sum_number.
  intros row x Hrow Hx. apply (H row h x Hrow); [|exact Hx].
  apply roleHeader_Some in E as (before & after & -> & _).
  apply elem_of_app. right. left.
Qed.

Lemma portfolio_yield_is_number_witness :
  let headers := ["Interest Rate"] in
  let data : list TableRow :=
    [ {[ "Interest Rate" := VString "9.20%" ]}; {[ "Interest Rate" := VString "n/a" ]} ] in
  Num.isNaN (portfolioYield (computeTotals headers data)) = false
  /\ yieldText (computeTotals headers data) = "Portfolio Yield: 4.6000% (2 loans)".
Proof.
  intros headers data. split; [|vm_compute; reflexivity].
  apply (portfolio_yield_is_number headers data); [vm_compute; reflexivity|].
  intros row h x Hrow Hh Hx.
  apply list_elem_of_In in Hrow. apply list_elem_of_In in Hh.
  destruct Hrow as [<-|[<-|[]]]; destruct Hh as [<-|[]];
    vm_compute in Hx; first [discriminate | injection Hx as <-; vm_compute; tauto].
Defined.
